(** * Cluster DDL helpers of the router: [createDatabase], [createCollection],
      [createLegacyUnshardedCollection] (mongo/s/cluster_ddl.cpp).

    The three entry points and their two file-local helpers are embedded as
    programs over the calls they make to their collaborators (catalog cache,
    shard registry, config shard, session resource yielder, request sender).
    A program either returns, or throws a [Status] the way [uassert] and
    [uassertStatusOK] do.  Running a program against a cluster gives its
    outcome together with the calls it made, in order. *)

From Stdlib Require Import String Ascii List Bool NArith ZArith Lia.
From Stdlib Require Import Permutation.
Import ListNotations.
Local Open Scope string_scope.
Local Open Scope list_scope.

(** ** Error codes and statuses *)

Module ErrorCodes.

(** The codes this file names, a few transport and write-concern codes for
    examples, and every other code by its number. *)
Inductive Error : Type :=
| OK
| HostUnreachable
| IllegalOperation
| NamespaceNotFound
| NamespaceExists
| WriteConcernFailed
| InternalError
| Other (code : N).

Definition eq_dec (a b : Error) : {a = b} + {a <> b}.
Proof. decide equality. apply N.eq_dec. Defined.

Definition eqb (a b : Error) : bool := if eq_dec a b then true else false.

End ErrorCodes.

Record Status : Type := mkStatus {
  code : ErrorCodes.Error;
  reason : string
}.

Definition Status_OK : Status := mkStatus ErrorCodes.OK "".

Definition isOK (s : Status) : bool := ErrorCodes.eqb (code s) ErrorCodes.OK.

(** [Status::operator==(ErrorCodes::Error)] compares the code only. *)
Definition status_is (s : Status) (c : ErrorCodes.Error) : bool :=
  ErrorCodes.eqb (code s) c.

(** [Status::withContext]: an OK status is unchanged, an error keeps its code
    and has the context put before its reason. *)
Definition withContext (s : Status) (reasonPrefix : string) : Status :=
  if isOK s then s
  else mkStatus (code s) (reasonPrefix ++ " :: caused by :: " ++ reason s).

Inductive StatusWith (T : Type) : Type :=
| SWValue (t : T)
| SWError (s : Status).
Arguments SWValue {T} t.
Arguments SWError {T} s.

Definition getStatus {T} (sw : StatusWith T) : Status :=
  match sw with
  | SWValue _ => Status_OK
  | SWError s => s
  end.

(** [StatusWith::operator==(ErrorCodes::Error)]. *)
Definition statusWith_is {T} (sw : StatusWith T) (c : ErrorCodes.Error) : bool :=
  status_is (getStatus sw) c.

(** ** Data *)

Definition DatabaseName : Type := string.

Definition kAdmin : DatabaseName := "admin".

Record NamespaceString : Type := mkNamespaceString {
  dbName : DatabaseName;
  coll : string
}.

(** Modelled from the spec: the declaration of ShardId (mongo/db/shard_id.h)
    is missing; a shard identifier is a name, and identifiers are ordered
    lexicographically. *)
Definition ShardId : Type := string.

(** Modelled from the spec: the version types (database_version.h,
    shard_version.h) are missing; versions are opaque tokens issued by the
    authority, and [UNSHARDED] is the fixed stamp of an unsharded target. *)
Definition DatabaseVersion : Type := N.

Inductive ShardVersion : Type :=
| UNSHARDED
| ShardVersionToken (token : N).

(** Modelled from the spec: CachedDatabaseInfo (catalog cache) is missing; a
    snapshot holds the database name, its primary shard and its version. *)
Record CachedDatabaseInfo : Type := mkCachedDatabaseInfo {
  getName : DatabaseName;
  getPrimary : ShardId;
  getVersion : DatabaseVersion
}.

(** A BSON document is an ordered list of named elements. *)
Inductive BSONValue : Type :=
| BString (s : string)
| BNumber (z : Z)
| BBool (b : bool)
| BObject (fields : list BSONElement)
with BSONElement : Type :=
| BElem (fieldName : string) (value : BSONValue).

Definition BSONObj : Type := list BSONElement.

Inductive ReadPreference : Type :=
| PrimaryOnly
| PrimaryPreferred
| SecondaryOnly
| SecondaryPreferred
| Nearest.

Module Shard.
Inductive RetryPolicy : Type :=
| kNoRetry
| kIdempotent
| kNotIdempotent.

(** The response of [runCommandWithFixedRetryAttempts]. *)
Record CommandResponse : Type := mkCommandResponse {
  response : BSONObj;
  commandStatus : Status;
  writeConcernStatus : Status
}.
End Shard.

Record RemoteCommandResponse : Type := mkRemoteCommandResponse {
  data : BSONObj
}.

Module AsyncRequestsSender.
Record Request : Type := mkRequest {
  shardId : ShardId;
  cmdObj : BSONObj
}.

Record Response : Type := mkResponse {
  responseShardId : ShardId;
  swResponse : StatusWith RemoteCommandResponse
}.
End AsyncRequestsSender.

(** The write concern of the operation: its document and whether the client
    supplied it ([getProvenance().isClientSupplied()]). *)
Record WriteConcernOptions : Type := mkWriteConcernOptions {
  wcDocument : BSONObj;
  isClientSupplied : bool
}.

(** What these functions read from the operation context. *)
Record OperationContext : Type := mkOperationContext {
  getWriteConcern : WriteConcernOptions;
  inMultiDocumentTransaction : bool;
  readConcernArgs : BSONObj
}.

(** The requests and responses generated from the IDL descriptions. *)
Record ConfigsvrCreateDatabase : Type := mkConfigsvrCreateDatabase {
  ccdCommandParameter : string;
  ccdDbName : DatabaseName;
  ccdPrimaryShardId : option ShardId
}.

Definition setDbName (r : ConfigsvrCreateDatabase) (d : DatabaseName) :=
  mkConfigsvrCreateDatabase (ccdCommandParameter r) d (ccdPrimaryShardId r).

Definition setPrimaryShardId (r : ConfigsvrCreateDatabase) (s : ShardId) :=
  mkConfigsvrCreateDatabase (ccdCommandParameter r) (ccdDbName r) (Some s).

Record ConfigsvrCreateDatabaseResponse : Type := mkConfigsvrCreateDatabaseResponse {
  getDatabaseVersion : DatabaseVersion
}.

Record ShardsvrCreateCollection : Type := mkShardsvrCreateCollection {
  getNamespace : NamespaceString;
  getUnsplittable : bool;
  sccOptions : BSONObj
}.

Record CreateCollectionResponse : Type := mkCreateCollectionResponse {
  getCollectionVersion : option ShardVersion
}.

Record CollectionRoutingInfo : Type := mkCollectionRoutingInfo {
  criToken : N
}.

(** ** Helpers declared outside this file

    Pure helpers of other translation units (cluster_commands_helpers,
    CommandHelpers, get_status_from_command_result, the IDL-generated
    serializers and parsers, NamespaceString).  They are parameters of the
    development: every theorem holds for whatever they compute.  A BSONObj is
    an immutable value: each [append...] helper takes the document and
    returns the extended copy, as the uses of their results below show
    ([appendDbVersionIfPresent] is applied to a [const BSONObj&]). *)
Class ClusterHelpers : Type := {
  appendShardVersion : BSONObj -> ShardVersion -> BSONObj;
  appendDbVersionIfPresent : BSONObj -> CachedDatabaseInfo -> BSONObj;
  appendMajorityWriteConcern : BSONObj -> BSONObj;
  appendWCToObj : BSONObj -> WriteConcernOptions -> BSONObj;
  filterCommandRequestForPassthrough : BSONObj -> BSONObj;
  applyReadWriteConcern : OperationContext -> bool -> bool -> BSONObj -> BSONObj;
  getStatusFromCommandResult : BSONObj -> Status;
  getWriteConcernStatusFromCommandResult : BSONObj -> Status;
  serializeDatabaseName : DatabaseName -> string;
  toStringForErrorMsg : DatabaseName -> string;
  isConfigDB : NamespaceString -> bool;
  ConfigsvrCreateDatabase_toBSON : ConfigsvrCreateDatabase -> BSONObj;
  ConfigsvrCreateDatabaseResponse_parse :
    BSONObj -> StatusWith ConfigsvrCreateDatabaseResponse;
  ShardsvrCreateCollection_serialize : ShardsvrCreateCollection -> BSONObj;
  CreateCollectionResponse_parse : BSONObj -> StatusWith CreateCollectionResponse
}.

(** ** Calls to collaborators *)

Inductive Call : Type :=
| CatalogCache_getDatabase (dbName : DatabaseName)
| CatalogCache_onStaleDatabaseVersion (dbName : DatabaseName) (v : DatabaseVersion)
| CatalogCache_invalidateShardOrEntireCollectionEntryForShardedCollection
    (nss : NamespaceString) (v : option ShardVersion) (shard : ShardId)
| ResourceYielder_yield
| ResourceYielder_unyieldNoThrow
| ConfigShard_runCommandWithFixedRetryAttempts
    (readPref : ReadPreference) (dbName : DatabaseName) (cmdObj : BSONObj)
    (retryPolicy : Shard.RetryPolicy)
| ShardRegistry_getAllShardIds
| gatherResponses
    (dbName : DatabaseName) (readPref : ReadPreference)
    (retryPolicy : Shard.RetryPolicy) (requests : list AsyncRequestsSender.Request)
| executeCommandAgainstDatabasePrimary
    (dbName : DatabaseName) (dbInfo : CachedDatabaseInfo) (cmdObj : BSONObj)
    (readPref : ReadPreference) (retryPolicy : Shard.RetryPolicy).

(** What each call gives back to the caller. *)
Definition Resp (c : Call) : Type :=
  match c with
  | CatalogCache_getDatabase _ => StatusWith CachedDatabaseInfo
  | CatalogCache_onStaleDatabaseVersion _ _ => unit
  | CatalogCache_invalidateShardOrEntireCollectionEntryForShardedCollection _ _ _ => unit
  | ResourceYielder_yield => unit
  | ResourceYielder_unyieldNoThrow => Status
  | ConfigShard_runCommandWithFixedRetryAttempts _ _ _ _ =>
      StatusWith Shard.CommandResponse
  | ShardRegistry_getAllShardIds => list ShardId
  | gatherResponses _ _ _ _ => list AsyncRequestsSender.Response
  | executeCommandAgainstDatabasePrimary _ _ _ _ _ => AsyncRequestsSender.Response
  end.

(** The calls that send a command over the network, to the authority or to a
    shard. *)
Definition isNetworkCall (c : Call) : bool :=
  match c with
  | ConfigShard_runCommandWithFixedRetryAttempts _ _ _ _ => true
  | gatherResponses _ _ _ _ => true
  | executeCommandAgainstDatabasePrimary _ _ _ _ _ => true
  | _ => false
  end.

Definition isUnyield (c : Call) : bool :=
  match c with
  | ResourceYielder_unyieldNoThrow => true
  | _ => false
  end.

Definition isYield (c : Call) : bool :=
  match c with
  | ResourceYielder_yield => true
  | _ => false
  end.

(** ** Programs *)

Inductive Prog (A : Type) : Type :=
| Ret (a : A)
| Throw (s : Status)
| Do (c : Call) (k : Resp c -> Prog A).
Arguments Ret {A} a.
Arguments Throw {A} s.
Arguments Do {A} c k.

Fixpoint bind {A B} (p : Prog A) (f : A -> Prog B) : Prog B :=
  match p with
  | Ret a => f a
  | Throw s => Throw s
  | Do c k => Do c (fun r => bind (k r) f)
  end.

Definition call (c : Call) : Prog (Resp c) := Do c Ret.

Declare Scope prog_scope.
Delimit Scope prog_scope with prog.
Notation "x <- c1 ;; c2" := (bind c1 (fun x => c2))
  (at level 61, c1 at next level, right associativity) : prog_scope.
Notation "c1 ;; c2" := (bind c1 (fun _ => c2))
  (at level 61, right associativity) : prog_scope.
Local Open Scope prog_scope.

(** [uassert(code, msg, cond)]. *)
Definition uassert (c : ErrorCodes.Error) (msg : string) (cond : bool) : Prog unit :=
  if cond then Ret tt else Throw (mkStatus c msg).

(** [uassertStatusOK] on a [Status] and on a [StatusWith]. *)
Definition uassertStatusOK (s : Status) : Prog unit :=
  if isOK s then Ret tt else Throw s.

Definition uassertStatusOKWithContext (s : Status) (ctx : string) : Prog unit :=
  if isOK s then Ret tt else Throw (withContext s ctx).

Definition uassertStatusWithOK {T} (sw : StatusWith T) : Prog T :=
  match sw with
  | SWValue t => Ret t
  | SWError s => Throw s
  end.

(** ** Running a program against a cluster *)

Inductive Outcome (A : Type) : Type :=
| Returned (a : A)
| Thrown (s : Status).
Arguments Returned {A} a.
Arguments Thrown {A} s.

Record Run (W A : Type) : Type := mkRun {
  outcome : Outcome A;
  trace : list Call;
  final : W
}.
Arguments mkRun {W A} outcome trace final.
Arguments outcome {W A} r.
Arguments trace {W A} r.
Arguments final {W A} r.

(** A cluster answers every call from its current state [W] and moves to a
    new state. *)
Definition Cluster (W : Type) : Type := forall c : Call, W -> Resp c * W.

Fixpoint run {W A} (cl : Cluster W) (p : Prog A) (w : W) : Run W A :=
  match p with
  | Ret a => mkRun (Returned a) [] w
  | Throw s => mkRun (Thrown s) [] w
  | Do c k =>
      let rw := cl c w in
      let r := run cl (k (fst rw)) (snd rw) in
      mkRun (outcome r) (c :: trace r) (final r)
  end.

(** ** [std::sort] on shard identifiers

    [ShardId] compares by its name, byte by byte.  [std::sort] leaves the
    vector in ascending order; an insertion sort computes that vector. *)

Definition ShardId_leb (a b : ShardId) : bool := String.leb a b.

Fixpoint insert_sorted (x : ShardId) (l : list ShardId) : list ShardId :=
  match l with
  | [] => [x]
  | y :: l' => if ShardId_leb x y then x :: l else y :: insert_sorted x l'
  end.

Fixpoint std_sort (l : list ShardId) : list ShardId :=
  match l with
  | [] => []
  | x :: l' => insert_sorted x (std_sort l')
  end.

(** [s] is below every identifier of [l]. *)
Definition lowerBound (s : ShardId) (l : list ShardId) : Prop :=
  forall x, In x l -> ShardId_leb s x = true.

(** ** The functions of cluster_ddl.cpp *)

Section ClusterDDL.

Context `{ClusterHelpers}.

(** [buildUnshardedRequestsForAllShards].  The call of [appendShardVersion]
    on line 75 is a statement: the document it returns is dropped, and
    [cmdToSend] is still the copy of [cmdObj] when the requests are built. *)
Definition buildUnshardedRequestsForAllShards
    (shardIds : list ShardId) (cmdObj : BSONObj)
  : list AsyncRequestsSender.Request :=
  let cmdToSend := cmdObj in
  let _ := appendShardVersion cmdToSend UNSHARDED in
  map (fun shardId => AsyncRequestsSender.mkRequest shardId cmdToSend) shardIds.

(** [responses.front()]; the vector holds one response per request, and
    [front] of an empty vector has no defined behaviour, which is marked
    by a throw no caller handles. *)
Definition vector_front {A} (v : list A) : Prog A :=
  match v with
  | x :: _ => Ret x
  | [] => Throw (mkStatus ErrorCodes.InternalError "front() of an empty vector")
  end.

Definition executeCommandAgainstFirstShard
    (opCtx : OperationContext) (dbName : DatabaseName)
    (dbInfo : CachedDatabaseInfo) (cmdObj : BSONObj)
    (readPref : ReadPreference) (retryPolicy : Shard.RetryPolicy)
  : Prog AsyncRequestsSender.Response :=
  shardIds <- call ShardRegistry_getAllShardIds ;;
  uassert ErrorCodes.IllegalOperation "there are no shards to target"
          (negb (match shardIds with [] => true | _ => false end)) ;;
  let shardIds := std_sort shardIds in
  match shardIds with
  | [] => Throw (mkStatus ErrorCodes.InternalError "shardIds[0] out of range")
  | shardId :: _ =>
      responses <- call (gatherResponses dbName readPref retryPolicy
                           (buildUnshardedRequestsForAllShards
                              [shardId] (appendDbVersionIfPresent cmdObj dbInfo))) ;;
      vector_front responses
  end.

Definition createDatabase
    (opCtx : OperationContext) (dbName : DatabaseName)
    (suggestedPrimaryId : option ShardId)
  : Prog CachedDatabaseInfo :=
  dbStatus <- call (CatalogCache_getDatabase dbName) ;;
  dbStatus <-
    (if statusWith_is dbStatus ErrorCodes.NamespaceNotFound then
       let request :=
         mkConfigsvrCreateDatabase (serializeDatabaseName dbName) "" None in
       let request := setDbName request kAdmin in
       let request :=
         match suggestedPrimaryId with
         | Some id => setPrimaryShardId request id
         | None => request
         end in
       call ResourceYielder_yield ;;
       swResponse <- call (ConfigShard_runCommandWithFixedRetryAttempts
                             PrimaryOnly kAdmin
                             (appendMajorityWriteConcern
                                (ConfigsvrCreateDatabase_toBSON request))
                             Shard.kIdempotent) ;;
       response <- uassertStatusWithOK swResponse ;;
       unyieldStatus <- call ResourceYielder_unyieldNoThrow ;;
       uassertStatusOK unyieldStatus ;;
       uassertStatusOK (Shard.writeConcernStatus response) ;;
       uassertStatusOKWithContext
         (Shard.commandStatus response)
         ("Database " ++ toStringForErrorMsg dbName ++ " could not be created") ;;
       createDbResponse <-
         uassertStatusWithOK
           (ConfigsvrCreateDatabaseResponse_parse (Shard.response response)) ;;
       call (CatalogCache_onStaleDatabaseVersion
               dbName (getDatabaseVersion createDbResponse)) ;;
       call (CatalogCache_getDatabase dbName)
     else Ret dbStatus) ;;
  uassertStatusWithOK dbStatus.

(** The document [builder] holds when the write concern is chosen: the
    serialized request followed by the read concern of the operation. *)
Definition builder_obj
    (opCtx : OperationContext) (request : ShardsvrCreateCollection) : BSONObj :=
  ShardsvrCreateCollection_serialize request ++ readConcernArgs opCtx.

(** The lambda initialising [cmdObjWithWc] in [createCollection]. *)
Definition cmdObjWithWc
    (opCtx : OperationContext) (request : ShardsvrCreateCollection) : BSONObj :=
  let nss := getNamespace request in
  let isSharded := negb (getUnsplittable request) in
  if isSharded && isConfigDB nss then
    appendMajorityWriteConcern (builder_obj opCtx request)
  else if isClientSupplied (getWriteConcern opCtx) then
    let wc := getWriteConcern opCtx in
    appendWCToObj (builder_obj opCtx request) wc
  else if inMultiDocumentTransaction opCtx then
    builder_obj opCtx request
  else
    appendMajorityWriteConcern (builder_obj opCtx request).

(** The lambda initialising [cmdResponse] in [createCollection]. *)
Definition cmdResponse
    (opCtx : OperationContext) (request : ShardsvrCreateCollection)
    (dbInfo : CachedDatabaseInfo) (cmdObjWithWc : BSONObj)
  : Prog AsyncRequestsSender.Response :=
  let nss := getNamespace request in
  let isSharded := negb (getUnsplittable request) in
  if isSharded && isConfigDB nss then
    executeCommandAgainstFirstShard
      opCtx (dbName nss) dbInfo cmdObjWithWc PrimaryOnly Shard.kIdempotent
  else
    call (executeCommandAgainstDatabasePrimary
            (dbName nss) dbInfo cmdObjWithWc PrimaryOnly Shard.kIdempotent).

Definition createCollection
    (opCtx : OperationContext) (request : ShardsvrCreateCollection)
  : Prog unit :=
  let nss := getNamespace request in
  dbInfo <- createDatabase opCtx (dbName nss) None ;;
  let cmdObjWithWc := cmdObjWithWc opCtx request in
  cmdResponse <- cmdResponse opCtx request dbInfo cmdObjWithWc ;;
  remoteResponse <- uassertStatusWithOK (AsyncRequestsSender.swResponse cmdResponse) ;;
  uassertStatusOK (getStatusFromCommandResult (data remoteResponse)) ;;
  createCollResp <-
    uassertStatusWithOK (CreateCollectionResponse_parse (data remoteResponse)) ;;
  call (CatalogCache_invalidateShardOrEntireCollectionEntryForShardedCollection
          nss (getCollectionVersion createCollResp) (getPrimary dbInfo)).

(** The callback [createLegacyUnshardedCollection] hands to
    [CollectionRouter::route]. *)
Definition createLegacyUnshardedCollection_callback
    (nss : NamespaceString) (opCtx : OperationContext)
    (cri : CollectionRoutingInfo)
  : Prog unit :=
  let dbName := dbName nss in
  let cmd : BSONObj := [BElem "create" (BString (coll nss))] in
  swDbInfo <- call (CatalogCache_getDatabase dbName) ;;
  dbInfo <- uassertStatusWithOK swDbInfo ;;
  cmdResponse <-
    call (executeCommandAgainstDatabasePrimary
            dbName dbInfo
            (applyReadWriteConcern
               opCtx true true (filterCommandRequestForPassthrough cmd))
            PrimaryOnly Shard.kIdempotent) ;;
  response <- uassertStatusWithOK (AsyncRequestsSender.swResponse cmdResponse) ;;
  let createStatus := getStatusFromCommandResult (data response) in
  (if negb (status_is createStatus ErrorCodes.NamespaceExists)
   then uassertStatusOK createStatus
   else Ret tt) ;;
  uassertStatusOK (getWriteConcernStatusFromCommandResult (data response)).

(** [CollectionRouter::route] (router_role.h) is missing: it is a parameter,
    given the name of the operation and the callback. *)
Definition createLegacyUnshardedCollection
    (route : OperationContext -> string ->
             (OperationContext -> CollectionRoutingInfo -> Prog unit) ->
             Prog unit)
    (opCtx : OperationContext) (nss : NamespaceString)
  : Prog unit :=
  let dbName := dbName nss in
  createDatabase opCtx dbName None ;;
  route opCtx "cluster::createLegacyUnshardedCollection"
        (createLegacyUnshardedCollection_callback nss).

(** The request [createDatabase] sends to the config shard. *)
Definition createDatabaseCommand
    (dbName : DatabaseName) (suggestedPrimaryId : option ShardId) : Call :=
  ConfigShard_runCommandWithFixedRetryAttempts
    PrimaryOnly kAdmin
    (appendMajorityWriteConcern
       (ConfigsvrCreateDatabase_toBSON
          (mkConfigsvrCreateDatabase
             (serializeDatabaseName dbName) kAdmin suggestedPrimaryId)))
    Shard.kIdempotent.

(** The request takes the first-shard path: a sharded creation in the config
    database. *)
Definition targetsFirstShard (request : ShardsvrCreateCollection) : bool :=
  negb (getUnsplittable request) && isConfigDB (getNamespace request).

(** The command the callback sends to the primary shard of the database. *)
Definition legacyCreateCommand
    (nss : NamespaceString) (opCtx : OperationContext) (dbInfo : CachedDatabaseInfo)
  : Call :=
  executeCommandAgainstDatabasePrimary
    (dbName nss) dbInfo
    (applyReadWriteConcern
       opCtx true true
       (filterCommandRequestForPassthrough [BElem "create" (BString (coll nss))]))
    PrimaryOnly Shard.kIdempotent.

End ClusterDDL.

(** ** What the specification says, as predicates on the code *)

(** The shard directory is empty: the registry enumerates no shard, whatever
    the state of the cluster. *)
Definition shardDirectoryEmpty {W} (cl : Cluster W) : Prop :=
  forall w, fst (cl ShardRegistry_getAllShardIds w) = [].

(** A run ends in the fatal IllegalOperation error and sent nothing over the
    network. *)
Definition illegalOperationWithoutNetwork {W A} (r : Run W A) : Prop :=
  (exists s, outcome r = Thrown s /\ code s = ErrorCodes.IllegalOperation) /\
  existsb isNetworkCall (trace r) = false.

(** The shards a run sent requests to through [gatherResponses]. *)
Fixpoint gatherTargets (tr : list Call) : list ShardId :=
  match tr with
  | [] => []
  | gatherResponses _ _ _ requests :: tr' =>
      map AsyncRequestsSender.shardId requests ++ gatherTargets tr'
  | _ :: tr' => gatherTargets tr'
  end.

(** The commands a run sent through [gatherResponses], one per request. *)
Fixpoint gatherCommands (tr : list Call) : list BSONObj :=
  match tr with
  | [] => []
  | gatherResponses _ _ _ requests :: tr' =>
      map AsyncRequestsSender.cmdObj requests ++ gatherCommands tr'
  | _ :: tr' => gatherCommands tr'
  end.

(** The write-concern precedence as the specification words it: a write
    concern the caller supplied is ignored inside a transaction, where the
    command carries none (the transaction's own applies), and is sent as it
    is outside a transaction; without one, the command carries majority
    outside a transaction and none inside. *)
Definition writeConcernPrecedenceAsSpecified
    `{ClusterHelpers} (opCtx : OperationContext) (request : ShardsvrCreateCollection)
  : Prop :=
  (inMultiDocumentTransaction opCtx = true ->
   cmdObjWithWc opCtx request = builder_obj opCtx request) /\
  (inMultiDocumentTransaction opCtx = false ->
   isClientSupplied (getWriteConcern opCtx) = true ->
   cmdObjWithWc opCtx request =
     appendWCToObj (builder_obj opCtx request) (getWriteConcern opCtx)) /\
  (inMultiDocumentTransaction opCtx = false ->
   isClientSupplied (getWriteConcern opCtx) = false ->
   cmdObjWithWc opCtx request =
     appendMajorityWriteConcern (builder_obj opCtx request)).

(** ** Kinds of calls, for statements about what a run never does *)

Definition isInvalidation (c : Call) : bool :=
  match c with
  | CatalogCache_invalidateShardOrEntireCollectionEntryForShardedCollection _ _ _ => true
  | _ => false
  end.



(** [gatherResponses] gives one response per request. *)
Definition answersEveryRequest {W} (cl : Cluster W) : Prop :=
  forall dbName readPref retryPolicy requests w,
    length (fst (cl (gatherResponses dbName readPref retryPolicy requests) w)) =
    length requests.

(** A contract for [CollectionRouter::route], whose code is missing: the
    router obtains the routing information by the program [prelude], runs the
    callback once with it, and passes on what the callback returns or throws. *)
Definition runsCallbackOnce
    (route : OperationContext -> string ->
             (OperationContext -> CollectionRoutingInfo -> Prog unit) ->
             Prog unit)
    (prelude : Prog CollectionRoutingInfo) : Prop :=
  forall opCtx name callback,
    route opCtx name callback = (cri <- prelude ;; callback opCtx cri).

(** ** A concrete wire format and a scripted cluster, for the examples *)

Module Examples.

Definition majorityDocument : BSONObj := [BElem "w" (BString "majority")].

Definition versionValue (v : ShardVersion) : BSONValue :=
  match v with
  | UNSHARDED => BString "UNSHARDED"
  | ShardVersionToken t => BNumber (Z.of_N t)
  end.

Fixpoint getField (name : string) (obj : BSONObj) : option BSONValue :=
  match obj with
  | [] => None
  | BElem n v :: obj' => if String.eqb n name then Some v else getField name obj'
  end.

Definition codeOfNumber (z : Z) : ErrorCodes.Error :=
  match z with
  | 0%Z => ErrorCodes.OK
  | 6%Z => ErrorCodes.HostUnreachable
  | 20%Z => ErrorCodes.IllegalOperation
  | 26%Z => ErrorCodes.NamespaceNotFound
  | 48%Z => ErrorCodes.NamespaceExists
  | 64%Z => ErrorCodes.WriteConcernFailed
  | _ => ErrorCodes.Other (Z.to_N z)
  end.

Definition statusOfField (name : string) (obj : BSONObj) : Status :=
  match getField name obj with
  | Some (BNumber z) => mkStatus (codeOfNumber z) name
  | _ => Status_OK
  end.

Definition wire : ClusterHelpers := {|
  appendShardVersion obj v := obj ++ [BElem "shardVersion" (versionValue v)];
  appendDbVersionIfPresent obj info :=
    obj ++ [BElem "databaseVersion" (BNumber (Z.of_N (getVersion info)))];
  appendMajorityWriteConcern obj :=
    obj ++ [BElem "writeConcern" (BObject majorityDocument)];
  appendWCToObj obj wc := obj ++ [BElem "writeConcern" (BObject (wcDocument wc))];
  filterCommandRequestForPassthrough obj := obj;
  applyReadWriteConcern opCtx _ _ obj :=
    obj ++ readConcernArgs opCtx
        ++ [BElem "writeConcern" (BObject (wcDocument (getWriteConcern opCtx)))];
  getStatusFromCommandResult obj := statusOfField "code" obj;
  getWriteConcernStatusFromCommandResult obj := statusOfField "writeConcernError" obj;
  serializeDatabaseName d := d;
  toStringForErrorMsg d := d;
  isConfigDB nss := String.eqb (dbName nss) "config";
  ConfigsvrCreateDatabase_toBSON r :=
    [BElem "_configsvrCreateDatabase" (BString (ccdCommandParameter r));
     BElem "$db" (BString (ccdDbName r))];
  ConfigsvrCreateDatabaseResponse_parse obj :=
    match getField "databaseVersion" obj with
    | Some (BNumber z) => SWValue (mkConfigsvrCreateDatabaseResponse (Z.to_N z))
    | _ => SWError (mkStatus (ErrorCodes.Other 40414%N) "missing databaseVersion")
    end;
  ShardsvrCreateCollection_serialize r :=
    [BElem "_shardsvrCreateCollection" (BString (coll (getNamespace r)));
     BElem "unsplittable" (BBool (getUnsplittable r))] ++ sccOptions r;
  CreateCollectionResponse_parse obj :=
    match getField "collectionVersion" obj with
    | Some (BNumber z) =>
        SWValue (mkCreateCollectionResponse (Some (ShardVersionToken (Z.to_N z))))
    | _ => SWValue (mkCreateCollectionResponse None)
    end
|}.

(** A cluster that answers from a script: the catalog cache answers its
    lookups from a list, one per lookup, and the other collaborators
    answer the same thing every time. *)
Record Script : Type := mkScript {
  lookups : list (StatusWith CachedDatabaseInfo);
  configAnswer : StatusWith Shard.CommandResponse;
  unyieldAnswer : Status;
  shardIdsAnswer : list ShardId;
  shardAnswer : AsyncRequestsSender.Response
}.

Definition notFound : Status :=
  mkStatus ErrorCodes.NamespaceNotFound "database not found".

Definition scripted : Cluster Script :=
  fun c =>
    match c as c0 return Script -> Resp c0 * Script with
    | CatalogCache_getDatabase _ => fun w =>
        match lookups w with
        | [] => (SWError notFound, w)
        | a :: rest =>
            (a, mkScript rest (configAnswer w) (unyieldAnswer w)
                         (shardIdsAnswer w) (shardAnswer w))
        end
    | CatalogCache_onStaleDatabaseVersion _ _ => fun w => (tt, w)
    | CatalogCache_invalidateShardOrEntireCollectionEntryForShardedCollection _ _ _ =>
        fun w => (tt, w)
    | ResourceYielder_yield => fun w => (tt, w)
    | ResourceYielder_unyieldNoThrow => fun w => (unyieldAnswer w, w)
    | ConfigShard_runCommandWithFixedRetryAttempts _ _ _ _ => fun w =>
        (configAnswer w, w)
    | ShardRegistry_getAllShardIds => fun w => (shardIdsAnswer w, w)
    | gatherResponses _ _ _ requests => fun w =>
        (map (fun _ => shardAnswer w) requests, w)
    | executeCommandAgainstDatabasePrimary _ _ _ _ _ => fun w => (shardAnswer w, w)
    end.

Definition opCtx0 : OperationContext :=
  mkOperationContext (mkWriteConcernOptions [] false) false [].

Definition testInfo : CachedDatabaseInfo := mkCachedDatabaseInfo "test" "s1" 7%N.

Definition configInfo : CachedDatabaseInfo := mkCachedDatabaseInfo "config" "config" 1%N.

Definition createdReply : Shard.CommandResponse :=
  Shard.mkCommandResponse [BElem "databaseVersion" (BNumber 7%Z)] Status_OK Status_OK.

Definition okReply : AsyncRequestsSender.Response :=
  AsyncRequestsSender.mkResponse
    "s1" (SWValue (mkRemoteCommandResponse [BElem "collectionVersion" (BNumber 3%Z)])).

Definition existsReply : AsyncRequestsSender.Response :=
  AsyncRequestsSender.mkResponse
    "s1" (SWValue (mkRemoteCommandResponse [BElem "code" (BNumber 48%Z)])).

Definition existsWithWriteConcernErrorReply : AsyncRequestsSender.Response :=
  AsyncRequestsSender.mkResponse
    "s1" (SWValue (mkRemoteCommandResponse
                     [BElem "code" (BNumber 48%Z);
                      BElem "writeConcernError" (BNumber 64%Z)])).

Definition hostUnreachable : Status :=
  mkStatus ErrorCodes.HostUnreachable "config server unreachable".

Definition unyieldFailed : Status :=
  mkStatus (ErrorCodes.Other 50911%N) "session could not be checked out again".

Definition rejected : Status :=
  mkStatus (ErrorCodes.Other 72%N) "invalid options".

Definition rejectedReply : Shard.CommandResponse :=
  Shard.mkCommandResponse [] rejected Status_OK.

Definition illegalReply : AsyncRequestsSender.Response :=
  AsyncRequestsSender.mkResponse
    "s1" (SWValue (mkRemoteCommandResponse [BElem "code" (BNumber 20%Z)])).

(** The cache knows the database. *)
Definition cacheHit : Script :=
  mkScript [SWValue testInfo] (SWValue createdReply) Status_OK
           ["s3"; "s1"; "s2"] okReply.

(** The cache does not know the database, the config shard creates it. *)
Definition cacheMiss : Script :=
  mkScript [SWError notFound; SWValue testInfo] (SWValue createdReply) Status_OK
           ["s3"; "s1"; "s2"] okReply.

(** The lookup in the cache fails for a reason of its own. *)
Definition cacheDown : Script :=
  mkScript [SWError hostUnreachable] (SWValue createdReply) Status_OK
           ["s3"; "s1"; "s2"] okReply.

(** The cache does not know the database and the config shard cannot be
    reached. *)
Definition configUnreachable : Script :=
  mkScript [SWError notFound; SWValue testInfo] (SWError hostUnreachable)
           Status_OK ["s3"; "s1"; "s2"] okReply.

(** The config shard rejects the creation and the session cannot be taken
    back. *)
Definition rejectedAndUnyieldFails : Script :=
  mkScript [SWError notFound; SWValue testInfo] (SWValue rejectedReply)
           unyieldFailed ["s3"; "s1"; "s2"] okReply.

(** The config database is cached; the registry enumerates the shards in the
    given order. *)
Definition configCached (ids : list ShardId) (answer : AsyncRequestsSender.Response)
  : Script :=
  mkScript [SWValue configInfo] (SWValue createdReply) Status_OK ids answer.

(** The database is cached and the primary shard gives the answer. *)
Definition legacyScript (answer : AsyncRequestsSender.Response) : Script :=
  mkScript [SWValue testInfo] (SWValue createdReply) Status_OK ["s1"] answer.

(** The same cluster with a shard registry that enumerates no shard. *)
Definition withNoShards {W} (cl : Cluster W) : Cluster W :=
  fun c =>
    match c as c0 return W -> Resp c0 * W with
    | ShardRegistry_getAllShardIds => fun w => ([], w)
    | c0 => cl c0
    end.

Definition sessionsRequest : ShardsvrCreateCollection :=
  mkShardsvrCreateCollection (mkNamespaceString "config" "system.sessions") false [].

Definition testRequest : ShardsvrCreateCollection :=
  mkShardsvrCreateCollection (mkNamespaceString "test" "c") true [].

Definition testNss : NamespaceString := mkNamespaceString "test" "c".

Definition cri0 : CollectionRoutingInfo := mkCollectionRoutingInfo 0.

Definition wOne : WriteConcernOptions :=
  mkWriteConcernOptions [BElem "w" (BNumber 1%Z)] true.

(** A client that supplied the write concern w:1, inside and outside a
    transaction, and internal callers without a write concern of their own. *)
Definition clientInTransaction : OperationContext := mkOperationContext wOne true [].

Definition clientOutsideTransaction : OperationContext :=
  mkOperationContext wOne false [].

Definition internalInTransaction : OperationContext :=
  mkOperationContext (mkWriteConcernOptions [] false) true [].

Definition createCmd : BSONObj := [BElem "create" (BString "c")].

Definition writeConcernFailed : Status :=
  mkStatus ErrorCodes.WriteConcernFailed "waiting for replication timed out".

(** The config shard rejects the creation and its write concern fails too. *)
Definition rejectedAndWriteConcernFailedReply : Shard.CommandResponse :=
  Shard.mkCommandResponse [] rejected writeConcernFailed.

Definition writeConcernFails : Script :=
  mkScript [SWError notFound; SWValue testInfo]
           (SWValue rejectedAndWriteConcernFailedReply) Status_OK ["s1"] okReply.

Definition creationRejected : Script :=
  mkScript [SWError notFound; SWValue testInfo] (SWValue rejectedReply)
           Status_OK ["s1"] okReply.

(** The database is created and dropped again before the second lookup. *)
Definition droppedAfterCreation : Script :=
  mkScript [SWError notFound; SWError notFound] (SWValue createdReply)
           Status_OK ["s1"] okReply.

Definition shardUnreachable : AsyncRequestsSender.Response :=
  AsyncRequestsSender.mkResponse "s1" (SWError hostUnreachable).

Definition writeConcernErrorReply : AsyncRequestsSender.Response :=
  AsyncRequestsSender.mkResponse
    "s1" (SWValue (mkRemoteCommandResponse
                     [BElem "writeConcernError" (BNumber 64%Z)])).

Definition plainReply : AsyncRequestsSender.Response :=
  AsyncRequestsSender.mkResponse "s1" (SWValue (mkRemoteCommandResponse [])).

(** A router that runs the callback once. *)
Definition routeOnce
    (opCtx : OperationContext) (name : string)
    (callback : OperationContext -> CollectionRoutingInfo -> Prog unit)
  : Prog unit :=
  callback opCtx cri0.

(** The database is cached for the lookup of [createDatabase] and for the
    lookup of the callback, and the primary shard gives the answer. *)
Definition legacyEntryScript (answer : AsyncRequestsSender.Response) : Script :=
  mkScript [SWValue testInfo; SWValue testInfo] (SWValue createdReply) Status_OK
           ["s1"] answer.

End Examples.

(** ** Error codes *)

Lemma ErrorCodes_eqb_eq (a b : ErrorCodes.Error) :
  ErrorCodes.eqb a b = true <-> a = b.
Proof.
  unfold ErrorCodes.eqb. destruct (ErrorCodes.eq_dec a b); split; congruence.
Qed.

Lemma ErrorCodes_eqb_neq (a b : ErrorCodes.Error) :
  ErrorCodes.eqb a b = false <-> a <> b.
Proof.
  unfold ErrorCodes.eqb. destruct (ErrorCodes.eq_dec a b); split; congruence.
Qed.

(** ** Running a sequence of two programs *)

Lemma run_bind {W A B} (cl : Cluster W) (p : Prog A) (f : A -> Prog B) (w : W) :
  run cl (bind p f) w =
    match outcome (run cl p w) with
    | Returned a =>
        let r := run cl (f a) (final (run cl p w)) in
        mkRun (outcome r) (trace (run cl p w) ++ trace r) (final r)
    | Thrown s => mkRun (Thrown s) (trace (run cl p w)) (final (run cl p w))
    end.
Proof.
  revert w.
  induction p as [a | s | c k IH]; intro w; simpl.
  - destruct (run cl (f a) w); reflexivity.
  - reflexivity.
  - rewrite IH.
    destruct (outcome (run cl (k (fst (cl c w))) (snd (cl c w)))); reflexivity.
Qed.

Lemma run_call {W} (cl : Cluster W) (c : Call) (w : W) :
  run cl (call c) w = mkRun (Returned (fst (cl c w))) [c] (snd (cl c w)).
Proof. reflexivity. Qed.

(** ** The order of shard identifiers and the sorted vector *)

Lemma ascii_compare_lt_trans (a b c : ascii) :
  Ascii.compare a b = Lt -> Ascii.compare b c = Lt -> Ascii.compare a c = Lt.
Proof.
  unfold Ascii.compare. rewrite !N.compare_lt_iff. lia.
Qed.

Lemma ShardId_leb_trans (a b c : ShardId) :
  ShardId_leb a b = true -> ShardId_leb b c = true -> ShardId_leb a c = true.
Proof.
  unfold ShardId_leb, String.leb.
  revert b c.
  induction a as [| x a IH]; intros [| y b] [| z c]; simpl; try congruence.
  destruct (Ascii.compare x y) eqn:Exy; try congruence;
    destruct (Ascii.compare y z) eqn:Eyz; try congruence.
  - apply Ascii.compare_eq_iff in Exy, Eyz. subst.
    replace (Ascii.compare z z) with Eq.
    + apply IH.
    + symmetry. unfold Ascii.compare. apply N.compare_refl.
  - apply Ascii.compare_eq_iff in Exy. subst. now rewrite Eyz.
  - apply Ascii.compare_eq_iff in Eyz. subst. now rewrite Exy.
  - now rewrite (ascii_compare_lt_trans _ _ _ Exy Eyz).
Qed.

Lemma ShardId_leb_total (a b : ShardId) :
  ShardId_leb a b = true \/ ShardId_leb b a = true.
Proof. apply String.leb_total. Qed.

Lemma ShardId_leb_antisym (a b : ShardId) :
  ShardId_leb a b = true -> ShardId_leb b a = true -> a = b.
Proof. apply String.leb_antisym. Qed.

Lemma ShardId_leb_refl (a : ShardId) : ShardId_leb a a = true.
Proof. destruct (ShardId_leb_total a a); assumption. Qed.

Lemma insert_sorted_perm (x : ShardId) (l : list ShardId) :
  Permutation (x :: l) (insert_sorted x l).
Proof.
  induction l as [| y l IH]; simpl.
  - apply Permutation_refl.
  - destruct (ShardId_leb x y).
    + apply Permutation_refl.
    + eapply perm_trans; [apply perm_swap | apply perm_skip, IH].
Qed.

Lemma std_sort_perm (l : list ShardId) : Permutation l (std_sort l).
Proof.
  induction l as [| x l IH]; simpl.
  - apply perm_nil.
  - eapply perm_trans; [apply perm_skip, IH | apply insert_sorted_perm].
Qed.

(** The first element of the sorted vector is below all the others. *)
Lemma insert_sorted_head (x : ShardId) (l : list ShardId) :
  (forall s rest, l = s :: rest -> lowerBound s rest) ->
  forall s rest, insert_sorted x l = s :: rest -> lowerBound s rest.
Proof.
  induction l as [| y l IH]; simpl; intros Hl s rest E.
  - injection E as <- <-. intros z [].
  - pose proof (Hl y l eq_refl) as Hy.
    destruct (ShardId_leb x y) eqn:Exy.
    + injection E as <- <-. intros z [<- | Hz]; [assumption |].
      eapply ShardId_leb_trans; [exact Exy | apply Hy, Hz].
    + injection E as <- <-. intros z Hz.
      apply (Permutation_in _ (Permutation_sym (insert_sorted_perm x l))) in Hz.
      destruct Hz as [<- | Hz]; [| apply Hy, Hz].
      destruct (ShardId_leb_total x y) as [C | C]; congruence.
Qed.

Lemma std_sort_head (l : list ShardId) :
  forall s rest, std_sort l = s :: rest -> lowerBound s rest.
Proof.
  induction l as [| x l IH]; simpl.
  - discriminate.
  - apply insert_sorted_head, IH.
Qed.

Lemma std_sort_front (l : list ShardId) :
  l <> [] ->
  exists s rest, std_sort l = s :: rest /\ In s l /\ lowerBound s l.
Proof.
  intro Hne.
  destruct (std_sort l) as [| s rest] eqn:E.
  - destruct l as [| x l]; [congruence |].
    pose proof (Permutation_length (std_sort_perm (x :: l))) as Hlen.
    rewrite E in Hlen. discriminate.
  - exists s, rest. split; [reflexivity |].
    pose proof (std_sort_perm l) as P. rewrite E in P.
    split.
    + apply (Permutation_in _ (Permutation_sym P)). now left.
    + intros x Hx. apply (Permutation_in _ P) in Hx.
      destruct Hx as [<- | Hx]; [apply ShardId_leb_refl |].
      now apply (std_sort_head l s rest E).
Qed.

(** A smallest identifier of a set is unique. *)
Lemma smallest_unique (l l' : list ShardId) (s s' : ShardId) :
  Permutation l l' ->
  In s l -> lowerBound s l -> In s' l' -> lowerBound s' l' -> s = s'.
Proof.
  intros P Hs Ls Hs' Ls'.
  apply ShardId_leb_antisym.
  - apply Ls. apply (Permutation_in _ (Permutation_sym P)), Hs'.
  - apply Ls'. apply (Permutation_in _ P), Hs.
Qed.

(** ** [createDatabase] *)

Section CreateDatabase.

Context `{ClusterHelpers} {W : Type} (cl : Cluster W).

Ltac unfold_createDatabase :=
  unfold createDatabase, createDatabaseCommand, setPrimaryShardId, setDbName,
    kAdmin, statusWith_is, status_is in *;
  simpl in *.

Ltac split_asserts :=
  repeat match goal with
         | |- context [uassertStatusOK ?x] =>
             unfold uassertStatusOK at 1; destruct (isOK x); simpl
         | |- context [uassertStatusOKWithContext ?x ?c] =>
             unfold uassertStatusOKWithContext at 1; destruct (isOK x); simpl
         | |- context [uassertStatusWithOK ?x] => destruct x; simpl
         end.

Lemma createDatabase_miss_prefix opCtx dbName sugg (w : W) s :
  fst (cl (CatalogCache_getDatabase dbName) w) = SWError s ->
  code s = ErrorCodes.NamespaceNotFound ->
  exists rest,
    trace (run cl (createDatabase opCtx dbName sugg) w) =
      CatalogCache_getDatabase dbName :: ResourceYielder_yield
        :: createDatabaseCommand dbName sugg :: rest.
Proof.
  intros Hget Hcode.
  destruct sugg; unfold_createDatabase; rewrite Hget; simpl; rewrite Hcode;
    simpl; eexists; reflexivity.
Qed.

(** When the nested call to the config shard comes back as an error status,
    [uassertStatusOK] throws it on the spot: the trace stops at that call. *)
Lemma createDatabase_nested_error opCtx dbName sugg (w : W) s e :
  let w1 := snd (cl (CatalogCache_getDatabase dbName) w) in
  let w2 := snd (cl ResourceYielder_yield w1) in
  fst (cl (CatalogCache_getDatabase dbName) w) = SWError s ->
  code s = ErrorCodes.NamespaceNotFound ->
  fst (cl (createDatabaseCommand dbName sugg) w2) = SWError e ->
  run cl (createDatabase opCtx dbName sugg) w =
    mkRun (Thrown e)
          [CatalogCache_getDatabase dbName; ResourceYielder_yield;
           createDatabaseCommand dbName sugg]
          (snd (cl (createDatabaseCommand dbName sugg) w2)).
Proof.
  intros w1 w2 Hget Hcode Hcmd. subst w1 w2.
  destruct sugg; unfold_createDatabase; rewrite Hget; simpl; rewrite Hcode;
    simpl; rewrite Hcmd; reflexivity.
Qed.

(** When the nested call delivers a response, [unyieldNoThrow] is called next,
    exactly once, whatever the statuses inside the response. *)
Lemma createDatabase_nested_response_unyields opCtx dbName sugg (w : W) s reply :
  let w1 := snd (cl (CatalogCache_getDatabase dbName) w) in
  let w2 := snd (cl ResourceYielder_yield w1) in
  fst (cl (CatalogCache_getDatabase dbName) w) = SWError s ->
  code s = ErrorCodes.NamespaceNotFound ->
  fst (cl (createDatabaseCommand dbName sugg) w2) = SWValue reply ->
  exists rest,
    trace (run cl (createDatabase opCtx dbName sugg) w) =
      CatalogCache_getDatabase dbName :: ResourceYielder_yield
        :: createDatabaseCommand dbName sugg
        :: ResourceYielder_unyieldNoThrow :: rest /\
    existsb isUnyield rest = false.
Proof.
  intros w1 w2 Hget Hcode Hcmd. subst w1 w2.
  destruct sugg; unfold_createDatabase; rewrite Hget; simpl; rewrite Hcode;
    simpl; rewrite Hcmd; simpl; split_asserts; eexists; split; reflexivity.
Qed.

(** When the response carries a failed command and [unyieldNoThrow] fails
    too, the status thrown is the one of the unyield step. *)
Lemma createDatabase_unyield_error_first opCtx dbName sugg (w : W) s reply :
  let w1 := snd (cl (CatalogCache_getDatabase dbName) w) in
  let w2 := snd (cl ResourceYielder_yield w1) in
  let w3 := snd (cl (createDatabaseCommand dbName sugg) w2) in
  fst (cl (CatalogCache_getDatabase dbName) w) = SWError s ->
  code s = ErrorCodes.NamespaceNotFound ->
  fst (cl (createDatabaseCommand dbName sugg) w2) = SWValue reply ->
  isOK (fst (cl ResourceYielder_unyieldNoThrow w3)) = false ->
  outcome (run cl (createDatabase opCtx dbName sugg) w) =
    Thrown (fst (cl ResourceYielder_unyieldNoThrow w3)).
Proof.
  intros w1 w2 w3 Hget Hcode Hcmd Hun. subst w1 w2 w3.
  destruct sugg; unfold_createDatabase; rewrite Hget; simpl; rewrite Hcode;
    simpl; rewrite Hcmd; simpl; unfold uassertStatusOK at 1; rewrite Hun;
    reflexivity.
Qed.

Lemma createDatabase_cache_hit opCtx dbName sugg (w : W) info :
  fst (cl (CatalogCache_getDatabase dbName) w) = SWValue info ->
  run cl (createDatabase opCtx dbName sugg) w =
    mkRun (Returned info) [CatalogCache_getDatabase dbName]
          (snd (cl (CatalogCache_getDatabase dbName) w)).
Proof.
  intro Hget. unfold_createDatabase. rewrite Hget. reflexivity.
Qed.

(** C6: when the lookup in the catalog cache gives a snapshot, [createDatabase]
    returns that snapshot and the lookup is the only call it makes: nothing
    is sent to the config shard or to any shard, and the cluster is left in
    the state the lookup left it in. *)
Theorem createDatabase_fast_path opCtx dbName sugg (w : W) info :
  let r := run cl (createDatabase opCtx dbName sugg) w in
  fst (cl (CatalogCache_getDatabase dbName) w) = SWValue info ->
  outcome r = Returned info /\
  trace r = [CatalogCache_getDatabase dbName] /\
  existsb isNetworkCall (trace r) = false /\
  final r = snd (cl (CatalogCache_getDatabase dbName) w).
Proof.
  intros r Hget. subst r.
  rewrite (createDatabase_cache_hit opCtx dbName sugg w info Hget).
  repeat split.
Qed.

(** C9: an error of the lookup whose code is not NamespaceNotFound is thrown
    as it is, and the lookup is the only call made; a lookup error with the
    code NamespaceNotFound is the one that starts the creation: the session
    is yielded and the request goes to the config shard. *)
Theorem createDatabase_lookup_error opCtx dbName sugg (w : W) s :
  fst (cl (CatalogCache_getDatabase dbName) w) = SWError s ->
  (code s <> ErrorCodes.NamespaceNotFound ->
   run cl (createDatabase opCtx dbName sugg) w =
     mkRun (Thrown s) [CatalogCache_getDatabase dbName]
           (snd (cl (CatalogCache_getDatabase dbName) w))) /\
  (code s = ErrorCodes.NamespaceNotFound ->
   exists rest,
     trace (run cl (createDatabase opCtx dbName sugg) w) =
       CatalogCache_getDatabase dbName :: ResourceYielder_yield
         :: createDatabaseCommand dbName sugg :: rest).
Proof.
  intro Hget. split.
  - intro Hcode. apply ErrorCodes_eqb_neq in Hcode.
    unfold_createDatabase. rewrite Hget. simpl. rewrite Hcode. reflexivity.
  - intro Hcode. now apply createDatabase_miss_prefix with (s := s).
Qed.

End CreateDatabase.

(** ** Target selection and request building *)

Section Dispatch.

Context `{ClusterHelpers} {W : Type} (cl : Cluster W).

(** The requests hold the identifiers in order, one request each, and every
    request holds [cmdObj] as it was passed in. *)
Lemma buildUnshardedRequestsForAllShards_spec shardIds cmdObj :
  map AsyncRequestsSender.shardId
      (buildUnshardedRequestsForAllShards shardIds cmdObj) = shardIds /\
  map AsyncRequestsSender.cmdObj
      (buildUnshardedRequestsForAllShards shardIds cmdObj) =
    map (fun _ => cmdObj) shardIds.
Proof.
  unfold buildUnshardedRequestsForAllShards.
  rewrite !map_map. simpl. split; [apply map_id | reflexivity].
Qed.

Lemma executeCommandAgainstFirstShard_no_shards
    opCtx dbName dbInfo cmdObj readPref retryPolicy (w : W) :
  fst (cl ShardRegistry_getAllShardIds w) = [] ->
  run cl (executeCommandAgainstFirstShard
            opCtx dbName dbInfo cmdObj readPref retryPolicy) w =
    mkRun (Thrown (mkStatus ErrorCodes.IllegalOperation
                            "there are no shards to target"))
          [ShardRegistry_getAllShardIds]
          (snd (cl ShardRegistry_getAllShardIds w)).
Proof.
  intro Hids. unfold executeCommandAgainstFirstShard. simpl in *.
  rewrite Hids. reflexivity.
Qed.

Lemma executeCommandAgainstFirstShard_trace
    opCtx dbName dbInfo cmdObj readPref retryPolicy (w : W) ids s rest :
  fst (cl ShardRegistry_getAllShardIds w) = ids ->
  std_sort ids = s :: rest ->
  trace (run cl (executeCommandAgainstFirstShard
                   opCtx dbName dbInfo cmdObj readPref retryPolicy) w) =
    [ShardRegistry_getAllShardIds;
     gatherResponses dbName readPref retryPolicy
       [AsyncRequestsSender.mkRequest s (appendDbVersionIfPresent cmdObj dbInfo)]].
Proof.
  intros Hids Hsort. unfold executeCommandAgainstFirstShard. simpl in *.
  rewrite Hids.
  destruct ids as [| i ids']; [discriminate |].
  unfold uassert. simpl in *. rewrite Hsort. simpl.
  match goal with
  | |- context [vector_front ?v] => destruct v; reflexivity
  end.
Qed.

(** C3: whenever the registry enumerates a non-empty set of shards,
    [executeCommandAgainstFirstShard] sends its one request to the shard
    whose identifier is the smallest in lexicographic order; two enumerations
    of the same set, in any two orders, lead to the same shard. *)
Theorem executeCommandAgainstFirstShard_targets_smallest
    opCtx dbName dbInfo cmdObj readPref retryPolicy
    (w w' : W) (ids ids' : list ShardId) :
  fst (cl ShardRegistry_getAllShardIds w) = ids ->
  fst (cl ShardRegistry_getAllShardIds w') = ids' ->
  ids <> [] ->
  Permutation ids ids' ->
  exists s,
    In s ids /\ lowerBound s ids /\
    gatherTargets
      (trace (run cl (executeCommandAgainstFirstShard
                        opCtx dbName dbInfo cmdObj readPref retryPolicy) w)) = [s] /\
    gatherTargets
      (trace (run cl (executeCommandAgainstFirstShard
                        opCtx dbName dbInfo cmdObj readPref retryPolicy) w')) = [s].
Proof.
  intros Hids Hids' Hne P.
  assert (Hne' : ids' <> []).
  { intro E. rewrite E in P. apply Permutation_sym, Permutation_nil in P.
    contradiction. }
  destruct (std_sort_front ids Hne) as (s & rest & Hsort & Hin & Hlow).
  destruct (std_sort_front ids' Hne') as (s' & rest' & Hsort' & Hin' & Hlow').
  assert (s = s') by (eapply smallest_unique; eassumption). subst s'.
  exists s. split; [assumption |]. split; [assumption |].
  rewrite (executeCommandAgainstFirstShard_trace _ _ _ _ _ _ w ids s rest Hids Hsort).
  rewrite (executeCommandAgainstFirstShard_trace _ _ _ _ _ _ w' ids' s rest' Hids' Hsort').
  split; reflexivity.
Qed.

End Dispatch.

(** ** [createCollection] *)

Section CreateCollection.

Context `{ClusterHelpers} {W : Type} (cl : Cluster W).

(** C2, as the code has it: a sharded creation in the config database is sent
    with majority, whatever the caller asked; otherwise a write concern the
    client supplied is appended as it is, inside a transaction as well as
    outside; otherwise nothing is appended inside a transaction, and majority
    is appended outside. *)
Theorem cmdObjWithWc_precedence opCtx request :
  (targetsFirstShard request = true ->
   cmdObjWithWc opCtx request =
     appendMajorityWriteConcern (builder_obj opCtx request)) /\
  (targetsFirstShard request = false ->
   isClientSupplied (getWriteConcern opCtx) = true ->
   cmdObjWithWc opCtx request =
     appendWCToObj (builder_obj opCtx request) (getWriteConcern opCtx)) /\
  (targetsFirstShard request = false ->
   isClientSupplied (getWriteConcern opCtx) = false ->
   inMultiDocumentTransaction opCtx = true ->
   cmdObjWithWc opCtx request = builder_obj opCtx request) /\
  (targetsFirstShard request = false ->
   isClientSupplied (getWriteConcern opCtx) = false ->
   inMultiDocumentTransaction opCtx = false ->
   cmdObjWithWc opCtx request =
     appendMajorityWriteConcern (builder_obj opCtx request)).
Proof.
  unfold cmdObjWithWc, targetsFirstShard.
  repeat split; intros; repeat
    match goal with
    | E : ?b = _ |- context [if ?b then _ else _] => rewrite E
    end; reflexivity.
Qed.

(** C4, as the code has it: with an empty shard directory, a sharded creation
    in the config database whose database has been resolved throws
    IllegalOperation as soon as the shards have been enumerated: nothing is
    sent to any shard, and when the database came from the cache nothing is
    sent over the network at all. *)
Theorem createCollection_no_shards opCtx request (w : W) dbInfo :
  let resolved :=
    run cl (createDatabase opCtx (dbName (getNamespace request)) None) w in
  let r := run cl (createCollection opCtx request) w in
  shardDirectoryEmpty cl ->
  targetsFirstShard request = true ->
  outcome resolved = Returned dbInfo ->
  outcome r =
    Thrown (mkStatus ErrorCodes.IllegalOperation "there are no shards to target") /\
  trace r = trace resolved ++ [ShardRegistry_getAllShardIds] /\
  (fst (cl (CatalogCache_getDatabase (dbName (getNamespace request))) w) =
     SWValue dbInfo ->
   trace r = [CatalogCache_getDatabase (dbName (getNamespace request));
              ShardRegistry_getAllShardIds] /\
   illegalOperationWithoutNetwork r).
Proof.
  intros resolved r Hempty Hfirst Hdb.
  assert (E : r = mkRun (Thrown (mkStatus ErrorCodes.IllegalOperation
                                         "there are no shards to target"))
                        (trace resolved ++ [ShardRegistry_getAllShardIds])
                        (snd (cl ShardRegistry_getAllShardIds (final resolved)))).
  { subst r. unfold createCollection. rewrite run_bind.
    change (run cl (createDatabase opCtx (dbName (getNamespace request)) None) w)
      with resolved.
    rewrite Hdb. cbv zeta. rewrite run_bind. unfold cmdResponse.
    unfold targetsFirstShard in Hfirst. rewrite Hfirst.
    rewrite executeCommandAgainstFirstShard_no_shards by apply Hempty.
    reflexivity. }
  rewrite E. cbn [outcome trace].
  split; [reflexivity |]. split; [reflexivity |].
  intro Hget. subst resolved.
  rewrite (createDatabase_cache_hit cl _ _ _ _ _ Hget). cbn [trace app].
  split; [reflexivity |].
  split; [eexists; split; reflexivity | reflexivity].
Qed.

(** C7: when the database is resolved, the dispatch brings back a response
    whose command status is OK and the response parses, [createCollection]
    returns, and its last call invalidates the catalog cache entry of the
    namespace with the collection version of that response and the primary
    shard of the database. *)
Theorem createCollection_invalidates_returned_version
    opCtx request (w : W) dbInfo sent remote parsed :
  let nss := getNamespace request in
  let resolved := run cl (createDatabase opCtx (dbName nss) None) w in
  let dispatched :=
    run cl (cmdResponse opCtx request dbInfo (cmdObjWithWc opCtx request))
        (final resolved) in
  let invalidation :=
    CatalogCache_invalidateShardOrEntireCollectionEntryForShardedCollection
      nss (getCollectionVersion parsed) (getPrimary dbInfo) in
  outcome resolved = Returned dbInfo ->
  outcome dispatched = Returned sent ->
  AsyncRequestsSender.swResponse sent = SWValue remote ->
  isOK (getStatusFromCommandResult (data remote)) = true ->
  CreateCollectionResponse_parse (data remote) = SWValue parsed ->
  run cl (createCollection opCtx request) w =
    mkRun (Returned tt)
          (trace resolved ++ trace dispatched ++ [invalidation])
          (snd (cl invalidation (final dispatched))).
Proof.
  intros nss resolved dispatched invalidation Hdb Hsend Hsw Hok Hparse.
  unfold createCollection. rewrite run_bind.
  change (run cl (createDatabase opCtx (dbName (getNamespace request)) None) w)
    with resolved.
  rewrite Hdb. cbv zeta. rewrite run_bind.
  change (run cl (cmdResponse opCtx request dbInfo (cmdObjWithWc opCtx request))
              (final resolved))
    with dispatched.
  rewrite Hsend. clearbody dispatched resolved. cbv zeta.
  rewrite Hsw. cbn [bind uassertStatusWithOK].
  unfold uassertStatusOK. rewrite Hok. cbn [bind uassertStatusWithOK].
  rewrite Hparse. simpl. subst invalidation nss.
  f_equal.
  match goal with
  | |- Returned ?u = _ => destruct u
  end.
  reflexivity.
Qed.

End CreateCollection.

(** ** [createLegacyUnshardedCollection] *)

Section CreateLegacyUnshardedCollection.

Context `{ClusterHelpers} {W : Type} (cl : Cluster W).

(** Once the shard has answered, the outcome of the callback is decided by
    the two statuses read from the answer. *)
Lemma legacy_callback_outcome nss opCtx cri (w : W) dbInfo remote :
  let w1 := snd (cl (CatalogCache_getDatabase (dbName nss)) w) in
  fst (cl (CatalogCache_getDatabase (dbName nss)) w) = SWValue dbInfo ->
  AsyncRequestsSender.swResponse
    (fst (cl (legacyCreateCommand nss opCtx dbInfo) w1)) = SWValue remote ->
  outcome (run cl (createLegacyUnshardedCollection_callback nss opCtx cri) w) =
    outcome (run cl
               ((if negb (status_is (getStatusFromCommandResult (data remote))
                                    ErrorCodes.NamespaceExists)
                 then uassertStatusOK (getStatusFromCommandResult (data remote))
                 else Ret tt) ;;
                uassertStatusOK
                  (getWriteConcernStatusFromCommandResult (data remote)))
               (snd (cl (legacyCreateCommand nss opCtx dbInfo) w1))).
Proof.
  intros w1 Hget Hsw. subst w1.
  unfold createLegacyUnshardedCollection_callback, legacyCreateCommand in *.
  simpl in *. rewrite Hget. simpl. rewrite Hsw. simpl. reflexivity.
Qed.

(** In the callback: when the shard answers the create command with the status
    NamespaceExists, that status is not thrown: the callback ends the way the
    check of the write-concern status alone ends, so it returns when the
    write-concern status is OK; every other command status that is not OK is
    thrown as it is. *)
Theorem legacy_NamespaceExists_swallowed nss opCtx cri (w : W) dbInfo remote :
  let w1 := snd (cl (CatalogCache_getDatabase (dbName nss)) w) in
  let createStatus := getStatusFromCommandResult (data remote) in
  let wcStatus := getWriteConcernStatusFromCommandResult (data remote) in
  let r := run cl (createLegacyUnshardedCollection_callback nss opCtx cri) w in
  fst (cl (CatalogCache_getDatabase (dbName nss)) w) = SWValue dbInfo ->
  AsyncRequestsSender.swResponse
    (fst (cl (legacyCreateCommand nss opCtx dbInfo) w1)) = SWValue remote ->
  (code createStatus = ErrorCodes.NamespaceExists ->
   outcome r = outcome (run cl (uassertStatusOK wcStatus) w) /\
   (isOK wcStatus = true -> outcome r = Returned tt)) /\
  (isOK createStatus = false ->
   code createStatus <> ErrorCodes.NamespaceExists ->
   outcome r = Thrown createStatus).
Proof.
  intros w1 createStatus wcStatus r Hget Hsw. subst r.
  rewrite (legacy_callback_outcome nss opCtx cri w dbInfo remote Hget Hsw).
  fold createStatus wcStatus. unfold status_is.
  split.
  - intro Hcode. rewrite Hcode. simpl.
    unfold uassertStatusOK. destruct (isOK wcStatus); simpl.
    + split; [reflexivity | reflexivity].
    + split; [reflexivity | discriminate].
  - intros Hnok Hcode. apply ErrorCodes_eqb_neq in Hcode. rewrite Hcode. simpl.
    unfold uassertStatusOK at 1. rewrite Hnok. reflexivity.
Qed.

(** In the callback: when the command status is the swallowed NamespaceExists
    and the write-concern status of the answer is not OK, the callback throws the
    write-concern status. *)
Theorem legacy_write_concern_error_surfaced nss opCtx cri (w : W) dbInfo remote :
  let w1 := snd (cl (CatalogCache_getDatabase (dbName nss)) w) in
  let createStatus := getStatusFromCommandResult (data remote) in
  let wcStatus := getWriteConcernStatusFromCommandResult (data remote) in
  fst (cl (CatalogCache_getDatabase (dbName nss)) w) = SWValue dbInfo ->
  AsyncRequestsSender.swResponse
    (fst (cl (legacyCreateCommand nss opCtx dbInfo) w1)) = SWValue remote ->
  code createStatus = ErrorCodes.NamespaceExists ->
  isOK wcStatus = false ->
  outcome (run cl (createLegacyUnshardedCollection_callback nss opCtx cri) w) =
    Thrown wcStatus.
Proof.
  intros w1 createStatus wcStatus Hget Hsw Hcode Hwc.
  rewrite (legacy_callback_outcome nss opCtx cri w dbInfo remote Hget Hsw).
  fold createStatus wcStatus. unfold status_is. rewrite Hcode. simpl.
  unfold uassertStatusOK. rewrite Hwc. reflexivity.
Qed.

End CreateLegacyUnshardedCollection.

(** ** The theorems at concrete clusters *)

Section Instances.

Import Examples.

Local Existing Instance wire.

Lemma createDatabase_fast_path_witness :
  fst (scripted (CatalogCache_getDatabase "test") cacheHit) = SWValue testInfo /\
  outcome (run scripted (createDatabase opCtx0 "test" None) cacheHit) =
    Returned testInfo /\
  trace (run scripted (createDatabase opCtx0 "test" None) cacheHit) =
    [CatalogCache_getDatabase "test"] /\
  existsb isNetworkCall
    (trace (run scripted (createDatabase opCtx0 "test" None) cacheHit)) = false /\
  final (run scripted (createDatabase opCtx0 "test" None) cacheHit) =
    snd (scripted (CatalogCache_getDatabase "test") cacheHit).
Proof.
  split; [reflexivity |].
  exact (createDatabase_fast_path scripted opCtx0 "test" None cacheHit testInfo
                                  eq_refl).
Defined.

Lemma createDatabase_lookup_error_witness :
  run scripted (createDatabase opCtx0 "test" None) cacheDown =
    mkRun (Thrown hostUnreachable) [CatalogCache_getDatabase "test"]
          (snd (scripted (CatalogCache_getDatabase "test") cacheDown)) /\
  exists rest,
    trace (run scripted (createDatabase opCtx0 "test" None) cacheMiss) =
      CatalogCache_getDatabase "test" :: ResourceYielder_yield
        :: createDatabaseCommand "test" None :: rest.
Proof.
  split.
  - apply (proj1 (createDatabase_lookup_error
                    scripted opCtx0 "test" None cacheDown hostUnreachable eq_refl)).
    discriminate.
  - apply (proj2 (createDatabase_lookup_error
                    scripted opCtx0 "test" None cacheMiss notFound eq_refl)).
    reflexivity.
Defined.

(** C1: on a cache miss with the config shard out of reach, the session is
    yielded, the nested call fails, and [createDatabase] throws without any
    call of [unyieldNoThrow]; and when the config shard rejects the creation
    and the unyield fails as well, the caller gets the status of the unyield,
    not the rejection. *)
Theorem createDatabase_unyield_not_on_every_exit :
  (let r := run scripted (createDatabase opCtx0 "test" None) configUnreachable in
   outcome r = Thrown hostUnreachable /\
   existsb isYield (trace r) = true /\
   existsb isUnyield (trace r) = false) /\
  (let r := run scripted (createDatabase opCtx0 "test" None)
                rejectedAndUnyieldFails in
   outcome r = Thrown unyieldFailed /\
   outcome r <> Thrown rejected).
Proof.
  split.
  - repeat split.
  - split; [reflexivity | discriminate].
Qed.

(** C8: the requests built for the shards s1 and s2 hold the command as it
    was passed in: the field that [appendShardVersion] adds for the
    UNSHARDED stamp is in none of them. *)
Theorem buildUnshardedRequestsForAllShards_unstamped :
  buildUnshardedRequestsForAllShards ["s1"; "s2"] createCmd =
    [AsyncRequestsSender.mkRequest "s1" createCmd;
     AsyncRequestsSender.mkRequest "s2" createCmd] /\
  map (fun r => getField "shardVersion" (AsyncRequestsSender.cmdObj r))
      (buildUnshardedRequestsForAllShards ["s1"; "s2"] createCmd) = [None; None] /\
  getField "shardVersion" (appendShardVersion createCmd UNSHARDED) =
    Some (BString "UNSHARDED").
Proof. repeat split. Qed.

Lemma executeCommandAgainstFirstShard_targets_smallest_witness :
  exists s,
    In s ["s3"; "s1"; "s2"] /\ lowerBound s ["s3"; "s1"; "s2"] /\
    gatherTargets
      (trace (run scripted
                  (executeCommandAgainstFirstShard
                     opCtx0 "config" configInfo createCmd PrimaryOnly Shard.kIdempotent)
                  (configCached ["s3"; "s1"; "s2"] okReply))) = [s] /\
    gatherTargets
      (trace (run scripted
                  (executeCommandAgainstFirstShard
                     opCtx0 "config" configInfo createCmd PrimaryOnly Shard.kIdempotent)
                  (configCached ["s1"; "s3"; "s2"] okReply))) = [s].
Proof.
  apply (executeCommandAgainstFirstShard_targets_smallest
           scripted opCtx0 "config" configInfo createCmd PrimaryOnly Shard.kIdempotent
           (configCached ["s3"; "s1"; "s2"] okReply)
           (configCached ["s1"; "s3"; "s2"] okReply)
           ["s3"; "s1"; "s2"] ["s1"; "s3"; "s2"]).
  - reflexivity.
  - reflexivity.
  - discriminate.
  - apply perm_swap.
Defined.

(** The set {s3, s1, s2} of the specification: the request goes to s1. *)
Example first_shard_of_s3_s1_s2 :
  gatherTargets
    (trace (run scripted
                (executeCommandAgainstFirstShard
                   opCtx0 "config" configInfo createCmd PrimaryOnly Shard.kIdempotent)
                (configCached ["s3"; "s1"; "s2"] okReply))) = ["s1"].
Proof. reflexivity. Qed.

Lemma cmdObjWithWc_precedence_witness :
  cmdObjWithWc clientOutsideTransaction sessionsRequest =
    appendMajorityWriteConcern (builder_obj clientOutsideTransaction sessionsRequest) /\
  cmdObjWithWc clientInTransaction testRequest =
    appendWCToObj (builder_obj clientInTransaction testRequest) wOne /\
  cmdObjWithWc internalInTransaction testRequest =
    builder_obj internalInTransaction testRequest /\
  cmdObjWithWc opCtx0 testRequest =
    appendMajorityWriteConcern (builder_obj opCtx0 testRequest).
Proof.
  split; [| split; [| split]].
  - apply (proj1 (cmdObjWithWc_precedence clientOutsideTransaction sessionsRequest)).
    reflexivity.
  - apply (proj1 (proj2 (cmdObjWithWc_precedence clientInTransaction testRequest)));
      reflexivity.
  - apply (proj1 (proj2 (proj2
             (cmdObjWithWc_precedence internalInTransaction testRequest))));
      reflexivity.
  - apply (proj2 (proj2 (proj2 (cmdObjWithWc_precedence opCtx0 testRequest))));
      reflexivity.
Defined.

(** Inside a transaction, a write concern the client supplied is appended to
    the command; and outside a transaction it is replaced by majority for a
    sharded creation in the config database. *)
Lemma writeConcernPrecedenceAsSpecified_counterexample :
  ~ writeConcernPrecedenceAsSpecified clientInTransaction testRequest /\
  ~ writeConcernPrecedenceAsSpecified clientOutsideTransaction sessionsRequest.
Proof.
  split.
  - intros [Htxn _]. specialize (Htxn eq_refl). discriminate Htxn.
  - intros (_ & Hout & _). specialize (Hout eq_refl eq_refl). discriminate Hout.
Qed.

Lemma createCollection_no_shards_witness :
  shardDirectoryEmpty (withNoShards scripted) /\
  illegalOperationWithoutNetwork
    (run (withNoShards scripted) (createCollection opCtx0 sessionsRequest)
         (configCached [] okReply)).
Proof.
  assert (E : shardDirectoryEmpty (withNoShards scripted)) by (intro w; reflexivity).
  split; [exact E |].
  refine (proj2 (proj2 (proj2 (createCollection_no_shards
                                 (withNoShards scripted) opCtx0 sessionsRequest
                                 (configCached [] okReply) configInfo
                                 E eq_refl eq_refl)) eq_refl)).
Defined.

(** With an empty shard directory, [createDatabase] of a database the cache
    does not know sends the creation to the config shard and returns the
    snapshot; and [createCollection] of an unsplittable collection outside the
    config database sends its command to the primary shard and returns. *)
Lemma no_shards_counterexample :
  shardDirectoryEmpty (withNoShards scripted) /\
  ~ illegalOperationWithoutNetwork
      (run (withNoShards scripted) (createDatabase opCtx0 "test" None) cacheMiss) /\
  ~ illegalOperationWithoutNetwork
      (run (withNoShards scripted) (createCollection opCtx0 testRequest) cacheHit).
Proof.
  split; [intro w; reflexivity |].
  split; intros [_ Hnet]; discriminate Hnet.
Qed.

Lemma createCollection_invalidates_returned_version_witness :
  run scripted (createCollection opCtx0 sessionsRequest)
      (configCached ["s3"; "s1"; "s2"] okReply) =
    mkRun (Returned tt)
          ([CatalogCache_getDatabase "config"] ++
           [ShardRegistry_getAllShardIds;
            gatherResponses
              "config" PrimaryOnly Shard.kIdempotent
              [AsyncRequestsSender.mkRequest
                 "s1" (appendDbVersionIfPresent
                         (cmdObjWithWc opCtx0 sessionsRequest) configInfo)]] ++
           [CatalogCache_invalidateShardOrEntireCollectionEntryForShardedCollection
              (getNamespace sessionsRequest) (Some (ShardVersionToken 3)) "config"])
          (mkScript [] (SWValue createdReply) Status_OK ["s3"; "s1"; "s2"] okReply).
Proof.
  exact (createCollection_invalidates_returned_version
           scripted opCtx0 sessionsRequest (configCached ["s3"; "s1"; "s2"] okReply)
           configInfo okReply
           (mkRemoteCommandResponse [BElem "collectionVersion" (BNumber 3%Z)])
           (mkCreateCollectionResponse (Some (ShardVersionToken 3)))
           eq_refl eq_refl eq_refl eq_refl eq_refl).
Defined.

Lemma legacy_NamespaceExists_swallowed_witness :
  outcome (run scripted
               (createLegacyUnshardedCollection_callback testNss opCtx0 cri0)
               (legacyScript existsReply)) = Returned tt /\
  outcome (run scripted
               (createLegacyUnshardedCollection_callback testNss opCtx0 cri0)
               (legacyScript illegalReply)) =
    Thrown (mkStatus ErrorCodes.IllegalOperation "code").
Proof.
  split.
  - apply (proj1 (legacy_NamespaceExists_swallowed
                    scripted testNss opCtx0 cri0 (legacyScript existsReply) testInfo
                    (mkRemoteCommandResponse [BElem "code" (BNumber 48%Z)])
                    eq_refl eq_refl));
      reflexivity.
  - refine (proj2 (legacy_NamespaceExists_swallowed
                     scripted testNss opCtx0 cri0 (legacyScript illegalReply) testInfo
                     (mkRemoteCommandResponse [BElem "code" (BNumber 20%Z)])
                     eq_refl eq_refl) _ _);
      [reflexivity | discriminate].
Defined.

Lemma legacy_write_concern_error_surfaced_witness :
  outcome (run scripted
               (createLegacyUnshardedCollection_callback testNss opCtx0 cri0)
               (legacyScript existsWithWriteConcernErrorReply)) =
    Thrown (mkStatus ErrorCodes.WriteConcernFailed "writeConcernError").
Proof.
  exact (legacy_write_concern_error_surfaced
           scripted testNss opCtx0 cri0
           (legacyScript existsWithWriteConcernErrorReply) testInfo
           (mkRemoteCommandResponse
              [BElem "code" (BNumber 48%Z);
               BElem "writeConcernError" (BNumber 64%Z)])
           eq_refl eq_refl eq_refl eq_refl).
Defined.

End Instances.

(** ** Running the assertions *)

Lemma run_uassertStatusWithOK {W T} (cl : Cluster W) (sw : StatusWith T) (w : W) :
  run cl (uassertStatusWithOK sw) w =
    mkRun (match sw with SWValue t => Returned t | SWError e => Thrown e end) [] w.
Proof. destruct sw; reflexivity. Qed.

Lemma run_uassertStatusWithOK_bind
    {W T B} (cl : Cluster W) (sw : StatusWith T) (f : T -> Prog B) (w : W) :
  run cl (bind (uassertStatusWithOK sw) f) w =
    match sw with
    | SWValue t => run cl (f t) w
    | SWError e => mkRun (Thrown e) [] w
    end.
Proof. destruct sw; reflexivity. Qed.

Lemma run_uassertStatusOK_bind
    {W B} (cl : Cluster W) (s : Status) (f : unit -> Prog B) (w : W) :
  run cl (bind (uassertStatusOK s) f) w =
    if isOK s then run cl (f tt) w else mkRun (Thrown s) [] w.
Proof. unfold uassertStatusOK. destruct (isOK s); reflexivity. Qed.

Lemma run_uassertStatusOK {W} (cl : Cluster W) (s : Status) (w : W) :
  run cl (uassertStatusOK s) w =
    if isOK s then mkRun (Returned tt) [] w else mkRun (Thrown s) [] w.
Proof. unfold uassertStatusOK. destruct (isOK s); reflexivity. Qed.

Lemma run_uassertStatusOKWithContext_bind
    {W B} (cl : Cluster W) (s : Status) (ctx : string) (f : unit -> Prog B) (w : W) :
  run cl (bind (uassertStatusOKWithContext s ctx) f) w =
    if isOK s then run cl (f tt) w else mkRun (Thrown (withContext s ctx)) [] w.
Proof. unfold uassertStatusOKWithContext. destruct (isOK s); reflexivity. Qed.

Ltac ddl_unfold :=
  unfold createDatabase, createDatabaseCommand, setPrimaryShardId, setDbName,
    kAdmin, statusWith_is, status_is in *;
  simpl in *.

(** One assertion of the program under [run]: rewrite it to the test it makes
    and split on the test. *)
Ltac run_assert :=
  match goal with
  | |- context [run _ (bind (uassertStatusWithOK ?x) _) _] =>
      rewrite run_uassertStatusWithOK_bind; destruct x eqn:?
  | |- context [run _ (bind (uassertStatusOK ?x) _) _] =>
      rewrite run_uassertStatusOK_bind; destruct (isOK x) eqn:?
  | |- context [run _ (bind (uassertStatusOKWithContext ?x _) _) _] =>
      rewrite run_uassertStatusOKWithContext_bind; destruct (isOK x) eqn:?
  | |- context [run _ (uassertStatusWithOK ?x) _] =>
      rewrite run_uassertStatusWithOK; destruct x eqn:?
  | |- context [run _ (uassertStatusOK ?x) _] =>
      rewrite run_uassertStatusOK; destruct (isOK x) eqn:?
  end;
  simpl.

(** ** Further behaviour of [createDatabase] *)

Section CreateDatabaseRuns.

Context `{ClusterHelpers} {W : Type} (cl : Cluster W).

Lemma createDatabase_trace_cases opCtx dbName sugg (w : W) :
  let tr := trace (run cl (createDatabase opCtx dbName sugg) w) in
  let get := CatalogCache_getDatabase dbName in
  let cmd := createDatabaseCommand dbName sugg in
  tr = [get] \/
  tr = [get; ResourceYielder_yield; cmd] \/
  tr = [get; ResourceYielder_yield; cmd; ResourceYielder_unyieldNoThrow] \/
  exists v,
    tr = [get; ResourceYielder_yield; cmd; ResourceYielder_unyieldNoThrow;
          CatalogCache_onStaleDatabaseVersion dbName v; get].
Proof.
  destruct sugg as [sid |]; ddl_unfold;
    (match goal with
     | |- context [getStatus ?x] => destruct x as [info | e]
     end;
     simpl; [left; reflexivity |]);
    (destruct (ErrorCodes.eqb (code e) ErrorCodes.NamespaceNotFound); simpl;
     [| left; reflexivity]);
    rewrite run_bind;
    (run_assert; [| right; left; reflexivity]);
    (run_assert; [| right; right; left; reflexivity]);
    (run_assert; [| right; right; left; reflexivity]);
    (run_assert; [| right; right; left; reflexivity]);
    (run_assert; [| right; right; left; reflexivity]);
    run_assert; right; right; right; eexists; reflexivity.
Qed.

(** Every run of [createDatabase] makes its calls in one fixed order and stops
    at one of four places: after the lookup, after the nested call to the
    config shard, after the unyield, or after the cache has been told the new
    version and has been asked again. *)
Theorem createDatabase_calls_in_order opCtx dbName sugg (w : W) :
  let tr := trace (run cl (createDatabase opCtx dbName sugg) w) in
  let get := CatalogCache_getDatabase dbName in
  let cmd := createDatabaseCommand dbName sugg in
  tr = [get] \/
  tr = [get; ResourceYielder_yield; cmd] \/
  tr = [get; ResourceYielder_yield; cmd; ResourceYielder_unyieldNoThrow] \/
  exists v,
    tr = [get; ResourceYielder_yield; cmd; ResourceYielder_unyieldNoThrow;
          CatalogCache_onStaleDatabaseVersion dbName v; get].
Proof.
  intros tr get cmd.
  destruct (createDatabase_trace_cases opCtx dbName sugg w)
    as [E | [E | [E | [v E]]]].
  - left. exact E.
  - right. left. exact E.
  - right. right. left. exact E.
  - right. right. right. exists v. exact E.
Qed.


(** The creation protocol from end to end: on a NamespaceNotFound lookup, when
    the config shard answers, the session is taken back and both statuses of
    the answer are OK, the cache is told the database version parsed from the
    answer and is asked again; what the second lookup gives is the result,
    a snapshot or its error as it is. *)
Theorem createDatabase_creates opCtx dbName sugg (w : W) s reply parsed :
  let get := CatalogCache_getDatabase dbName in
  let cmd := createDatabaseCommand dbName sugg in
  let w1 := snd (cl get w) in
  let w2 := snd (cl ResourceYielder_yield w1) in
  let w3 := snd (cl cmd w2) in
  let w4 := snd (cl ResourceYielder_unyieldNoThrow w3) in
  let notice :=
    CatalogCache_onStaleDatabaseVersion dbName (getDatabaseVersion parsed) in
  let w5 := snd (cl notice w4) in
  fst (cl get w) = SWError s ->
  code s = ErrorCodes.NamespaceNotFound ->
  fst (cl cmd w2) = SWValue reply ->
  isOK (fst (cl ResourceYielder_unyieldNoThrow w3)) = true ->
  isOK (Shard.writeConcernStatus reply) = true ->
  isOK (Shard.commandStatus reply) = true ->
  ConfigsvrCreateDatabaseResponse_parse (Shard.response reply) = SWValue parsed ->
  run cl (createDatabase opCtx dbName sugg) w =
    mkRun (match fst (cl get w5) with
           | SWValue info => Returned info
           | SWError e => Thrown e
           end)
          [get; ResourceYielder_yield; cmd; ResourceYielder_unyieldNoThrow;
           notice; get]
          (snd (cl get w5)).
Proof.
  intros get cmd w1 w2 w3 w4 notice w5 Hget Hcode Hcmd Hun Hwc Hcs Hparse.
  subst get cmd w1 w2 w3 w4 notice w5.
  destruct sugg as [sid |]; ddl_unfold; rewrite Hget; simpl; rewrite Hcode;
    simpl; rewrite run_bind, run_uassertStatusWithOK_bind, Hcmd; simpl;
    rewrite run_uassertStatusOK_bind, Hun;
    rewrite run_uassertStatusOK_bind, Hwc;
    rewrite run_uassertStatusOKWithContext_bind, Hcs;
    rewrite run_uassertStatusWithOK_bind, Hparse; simpl;
    rewrite run_uassertStatusWithOK; reflexivity.
Qed.

(** A failed write concern of the creation is thrown as it is once the
    session is back, whatever the command status of the same answer, and the
    cache is neither told a version nor asked again. *)
Theorem createDatabase_write_concern_error opCtx dbName sugg (w : W) s reply :
  let get := CatalogCache_getDatabase dbName in
  let cmd := createDatabaseCommand dbName sugg in
  let w1 := snd (cl get w) in
  let w2 := snd (cl ResourceYielder_yield w1) in
  let w3 := snd (cl cmd w2) in
  fst (cl get w) = SWError s ->
  code s = ErrorCodes.NamespaceNotFound ->
  fst (cl cmd w2) = SWValue reply ->
  isOK (fst (cl ResourceYielder_unyieldNoThrow w3)) = true ->
  isOK (Shard.writeConcernStatus reply) = false ->
  run cl (createDatabase opCtx dbName sugg) w =
    mkRun (Thrown (Shard.writeConcernStatus reply))
          [get; ResourceYielder_yield; cmd; ResourceYielder_unyieldNoThrow]
          (snd (cl ResourceYielder_unyieldNoThrow w3)).
Proof.
  intros get cmd w1 w2 w3 Hget Hcode Hcmd Hun Hwc.
  subst get cmd w1 w2 w3.
  destruct sugg as [sid |]; ddl_unfold; rewrite Hget; simpl; rewrite Hcode;
    simpl; rewrite run_bind, run_uassertStatusWithOK_bind, Hcmd; simpl;
    rewrite run_uassertStatusOK_bind, Hun;
    rewrite run_uassertStatusOK_bind, Hwc; reflexivity.
Qed.

Lemma withContext_code (s : Status) (ctx : string) :
  code (withContext s ctx) = code s.
Proof. unfold withContext. destruct (isOK s); reflexivity. Qed.

(** A creation the config shard rejects is thrown with the code of the
    rejection, in the context "Database <name> could not be created"; the
    cache is neither told a version nor asked again. *)
Theorem createDatabase_command_error opCtx dbName sugg (w : W) s reply :
  let get := CatalogCache_getDatabase dbName in
  let cmd := createDatabaseCommand dbName sugg in
  let w1 := snd (cl get w) in
  let w2 := snd (cl ResourceYielder_yield w1) in
  let w3 := snd (cl cmd w2) in
  let r := run cl (createDatabase opCtx dbName sugg) w in
  let thrown :=
    withContext (Shard.commandStatus reply)
                ("Database " ++ toStringForErrorMsg dbName ++
                 " could not be created") in
  fst (cl get w) = SWError s ->
  code s = ErrorCodes.NamespaceNotFound ->
  fst (cl cmd w2) = SWValue reply ->
  isOK (fst (cl ResourceYielder_unyieldNoThrow w3)) = true ->
  isOK (Shard.writeConcernStatus reply) = true ->
  isOK (Shard.commandStatus reply) = false ->
  outcome r = Thrown thrown /\
  code thrown = code (Shard.commandStatus reply) /\
  trace r = [get; ResourceYielder_yield; cmd; ResourceYielder_unyieldNoThrow].
Proof.
  intros get cmd w1 w2 w3 r thrown Hget Hcode Hcmd Hun Hwc Hcs.
  split; [| split; [apply withContext_code |]];
    subst get cmd w1 w2 w3 r thrown;
    destruct sugg as [sid |]; ddl_unfold; rewrite Hget; simpl; rewrite Hcode;
    simpl; rewrite run_bind, run_uassertStatusWithOK_bind, Hcmd; simpl;
    rewrite run_uassertStatusOK_bind, Hun;
    rewrite run_uassertStatusOK_bind, Hwc;
    rewrite run_uassertStatusOKWithContext_bind, Hcs; reflexivity.
Qed.

Lemma createDatabase_no_invalidation opCtx dbName sugg (w : W) :
  existsb isInvalidation (trace (run cl (createDatabase opCtx dbName sugg) w)) =
    false.
Proof.
  destruct (createDatabase_trace_cases opCtx dbName sugg w)
    as [E | [E | [E | [v E]]]];
    rewrite E; reflexivity.
Qed.

End CreateDatabaseRuns.

(** ** Further behaviour of the dispatch and of [createCollection] *)

Section CreateCollectionRuns.

Context `{ClusterHelpers} {W : Type} (cl : Cluster W).

(** With at least one shard enumerated, [executeCommandAgainstFirstShard]
    enumerates the shards once, sends one request, to the first identifier of
    the sorted vector, holding the command with the database version of the
    snapshot appended and the read preference and retry policy it was given,
    and returns the first response gathered. *)
Theorem executeCommandAgainstFirstShard_returns_first_response
    opCtx dbName dbInfo cmdObj readPref retryPolicy (w : W) s rest first others :
  let send :=
    gatherResponses
      dbName readPref retryPolicy
      [AsyncRequestsSender.mkRequest s (appendDbVersionIfPresent cmdObj dbInfo)] in
  let w1 := snd (cl ShardRegistry_getAllShardIds w) in
  std_sort (fst (cl ShardRegistry_getAllShardIds w)) = s :: rest ->
  fst (cl send w1) = first :: others ->
  run cl (executeCommandAgainstFirstShard
            opCtx dbName dbInfo cmdObj readPref retryPolicy) w =
    mkRun (Returned first) [ShardRegistry_getAllShardIds; send] (snd (cl send w1)).
Proof.
  intros send w1 Hsort Hgather. subst send w1.
  unfold executeCommandAgainstFirstShard. simpl in *.
  revert Hsort.
  match goal with
  | |- std_sort ?x = _ -> _ => destruct x as [| i ids]
  end;
    intro Hsort; [discriminate |].
  unfold uassert. simpl in *. rewrite Hsort. simpl. rewrite Hgather. reflexivity.
Qed.

Lemma cmdResponse_no_invalidation opCtx request dbInfo cmdObj (w : W) :
  existsb isInvalidation
          (trace (run cl (cmdResponse opCtx request dbInfo cmdObj) w)) = false.
Proof.
  unfold cmdResponse.
  destruct (negb (getUnsplittable request) && isConfigDB (getNamespace request));
    [| reflexivity].
  unfold executeCommandAgainstFirstShard. simpl.
  match goal with
  | |- context [std_sort ?x] => destruct x as [| i ids]
  end;
    [reflexivity |].
  unfold uassert. simpl.
  destruct (insert_sorted i (std_sort ids)) as [| s rest]; [reflexivity |].
  simpl.
  match goal with
  | |- context [vector_front ?v] => destruct v; reflexivity
  end.
Qed.

(** When the database cannot be resolved, [createCollection] throws what
    [createDatabase] threw and makes no call of its own: nothing is
    dispatched and the cache is not invalidated. *)
Theorem createCollection_database_failure opCtx request (w : W) s :
  let resolved :=
    run cl (createDatabase opCtx (dbName (getNamespace request)) None) w in
  outcome resolved = Thrown s ->
  run cl (createCollection opCtx request) w =
    mkRun (Thrown s) (trace resolved) (final resolved).
Proof.
  intros resolved Hdb. unfold createCollection. rewrite run_bind.
  change (run cl (createDatabase opCtx (dbName (getNamespace request)) None) w)
    with resolved.
  rewrite Hdb. reflexivity.
Qed.

(** What follows the dispatch in [createCollection], run from the state the
    dispatch left. *)
Lemma createCollection_after_dispatch opCtx request (w : W) dbInfo sent :
  let resolved :=
    run cl (createDatabase opCtx (dbName (getNamespace request)) None) w in
  let dispatched :=
    run cl (cmdResponse opCtx request dbInfo (cmdObjWithWc opCtx request))
        (final resolved) in
  outcome resolved = Returned dbInfo ->
  outcome dispatched = Returned sent ->
  run cl (createCollection opCtx request) w =
    match AsyncRequestsSender.swResponse sent with
    | SWError e =>
        mkRun (Thrown e) (trace resolved ++ trace dispatched) (final dispatched)
    | SWValue remote =>
        if isOK (getStatusFromCommandResult (data remote)) then
          match CreateCollectionResponse_parse (data remote) with
          | SWError e =>
              mkRun (Thrown e) (trace resolved ++ trace dispatched)
                    (final dispatched)
          | SWValue parsed =>
              let invalidation :=
                CatalogCache_invalidateShardOrEntireCollectionEntryForShardedCollection
                  (getNamespace request) (getCollectionVersion parsed)
                  (getPrimary dbInfo) in
              mkRun (Returned tt)
                    (trace resolved ++ trace dispatched ++ [invalidation])
                    (snd (cl invalidation (final dispatched)))
          end
        else
          mkRun (Thrown (getStatusFromCommandResult (data remote)))
                (trace resolved ++ trace dispatched) (final dispatched)
    end.
Proof.
  intros resolved dispatched Hdb Hsend.
  unfold createCollection. rewrite run_bind.
  change (run cl (createDatabase opCtx (dbName (getNamespace request)) None) w)
    with resolved.
  rewrite Hdb. cbv zeta. rewrite run_bind.
  change (run cl (cmdResponse opCtx request dbInfo (cmdObjWithWc opCtx request))
              (final resolved))
    with dispatched.
  rewrite Hsend. clearbody dispatched resolved. cbv zeta.
  rewrite run_uassertStatusWithOK_bind.
  destruct (AsyncRequestsSender.swResponse sent) as [remote | e];
    [| simpl; rewrite app_nil_r; reflexivity].
  rewrite run_uassertStatusOK_bind.
  destruct (isOK (getStatusFromCommandResult (data remote)));
    [| simpl; rewrite app_nil_r; reflexivity].
  rewrite run_uassertStatusWithOK_bind.
  destruct (CreateCollectionResponse_parse (data remote)) as [parsed | e];
    [| simpl; rewrite app_nil_r; reflexivity].
  simpl. f_equal.
  match goal with
  | |- Returned ?u = _ => destruct u
  end.
  reflexivity.
Qed.

(** A failure after the dispatch is thrown as it is and leaves the cache
    alone: the transport error of the response, else the command status that
    is not OK, else the error of parsing the response. *)
Theorem createCollection_error_surfaced opCtx request (w : W) dbInfo sent :
  let resolved :=
    run cl (createDatabase opCtx (dbName (getNamespace request)) None) w in
  let dispatched :=
    run cl (cmdResponse opCtx request dbInfo (cmdObjWithWc opCtx request))
        (final resolved) in
  let failing (e : Status) : Run W unit :=
    mkRun (Thrown e) (trace resolved ++ trace dispatched) (final dispatched) in
  outcome resolved = Returned dbInfo ->
  outcome dispatched = Returned sent ->
  (forall e,
      AsyncRequestsSender.swResponse sent = SWError e ->
      run cl (createCollection opCtx request) w = failing e) /\
  (forall remote,
      AsyncRequestsSender.swResponse sent = SWValue remote ->
      isOK (getStatusFromCommandResult (data remote)) = false ->
      run cl (createCollection opCtx request) w =
        failing (getStatusFromCommandResult (data remote))) /\
  (forall remote e,
      AsyncRequestsSender.swResponse sent = SWValue remote ->
      isOK (getStatusFromCommandResult (data remote)) = true ->
      CreateCollectionResponse_parse (data remote) = SWError e ->
      run cl (createCollection opCtx request) w = failing e).
Proof.
  intros resolved dispatched failing Hdb Hsend.
  pose proof (createCollection_after_dispatch opCtx request w dbInfo sent Hdb Hsend)
    as E.
  fold resolved dispatched in E. clearbody resolved dispatched.
  subst failing. cbv beta.
  split; [| split].
  - intros e Hsw. rewrite E, Hsw. reflexivity.
  - intros remote Hsw Hst. rewrite E, Hsw, Hst. reflexivity.
  - intros remote e Hsw Hst Hparse. rewrite E, Hsw, Hst, Hparse. reflexivity.
Qed.

(** On a cluster that gathers one response per request, the cache entry of the
    collection is invalidated exactly when [createCollection] returns: a run
    that throws contains no invalidation, and a run that returns ends with
    the one invalidation it contains. *)
Theorem createCollection_invalidates_iff_returns opCtx request (w : W) :
  let r := run cl (createCollection opCtx request) w in
  answersEveryRequest cl ->
  (forall s, outcome r = Thrown s -> existsb isInvalidation (trace r) = false) /\
  (outcome r = Returned tt ->
   exists before v shard,
     trace r =
       before ++
       [CatalogCache_invalidateShardOrEntireCollectionEntryForShardedCollection
          (getNamespace request) v shard] /\
     existsb isInvalidation before = false).
Proof.
  intros r _. subst r.
  pose proof (createDatabase_no_invalidation
                cl opCtx (dbName (getNamespace request)) None w) as Hdbtr.
  destruct (outcome (run cl (createDatabase opCtx (dbName (getNamespace request))
                                            None) w)) as [dbInfo | s0] eqn:Hdb.
  - pose proof (cmdResponse_no_invalidation
                  opCtx request dbInfo (cmdObjWithWc opCtx request)
                  (final (run cl (createDatabase
                                    opCtx (dbName (getNamespace request)) None) w)))
      as Hsendtr.
    destruct (outcome (run cl (cmdResponse opCtx request dbInfo
                                           (cmdObjWithWc opCtx request))
                           (final (run cl (createDatabase
                                             opCtx (dbName (getNamespace request))
                                             None) w))))
      as [sent | s1] eqn:Hsend.
    + rewrite (createCollection_after_dispatch opCtx request w dbInfo sent Hdb Hsend).
      destruct (AsyncRequestsSender.swResponse sent) as [remote | e];
        [destruct (isOK (getStatusFromCommandResult (data remote)));
         [destruct (CreateCollectionResponse_parse (data remote)) as [parsed | e] |] |];
        cbn [outcome trace]; (split; [intros s Hs | intro Hret]);
        try discriminate;
        try (rewrite existsb_app, Hdbtr, Hsendtr; reflexivity).
      eexists _, _, _. rewrite app_assoc. split; [reflexivity |].
      rewrite existsb_app, Hdbtr, Hsendtr. reflexivity.
    + unfold createCollection. rewrite run_bind, Hdb. cbv zeta.
      rewrite run_bind, Hsend. cbn [outcome trace].
      split; [intros s Hs | intro Hret; discriminate].
      rewrite existsb_app, Hdbtr, Hsendtr. reflexivity.
  - unfold createCollection. rewrite run_bind, Hdb. cbn [outcome trace].
    split; [intros s Hs; exact Hdbtr | intro Hret; discriminate].
Qed.

(** Outside the first-shard path the command, with the write concern chosen
    for it, goes to the primary shard of the resolved database, with read
    preference PrimaryOnly and the idempotent retry policy; it is the only
    call after the resolution, but for the invalidation that may follow. *)
Theorem createCollection_dispatches_to_primary opCtx request (w : W) dbInfo :
  let resolved :=
    run cl (createDatabase opCtx (dbName (getNamespace request)) None) w in
  let send :=
    executeCommandAgainstDatabasePrimary
      (dbName (getNamespace request)) dbInfo (cmdObjWithWc opCtx request)
      PrimaryOnly Shard.kIdempotent in
  targetsFirstShard request = false ->
  outcome resolved = Returned dbInfo ->
  exists rest,
    trace (run cl (createCollection opCtx request) w) =
      trace resolved ++ send :: rest /\
    (rest = [] \/
     exists v,
       rest =
         [CatalogCache_invalidateShardOrEntireCollectionEntryForShardedCollection
            (getNamespace request) v (getPrimary dbInfo)]).
Proof.
  intros resolved send Hpath Hdb.
  assert (Hsend : run cl (cmdResponse opCtx request dbInfo
                                      (cmdObjWithWc opCtx request))
                      (final resolved) =
                  mkRun (Returned (fst (cl send (final resolved)))) [send]
                        (snd (cl send (final resolved)))).
  { unfold cmdResponse. unfold targetsFirstShard in Hpath. rewrite Hpath.
    reflexivity. }
  pose proof (createCollection_after_dispatch
                opCtx request w dbInfo (fst (cl send (final resolved))) Hdb) as E.
  fold resolved in E. rewrite Hsend in E. specialize (E eq_refl).
  rewrite E. clear E.
  destruct (AsyncRequestsSender.swResponse (fst (cl send (final resolved))))
    as [remote | e];
    [destruct (isOK (getStatusFromCommandResult (data remote)));
     [destruct (CreateCollectionResponse_parse (data remote)) as [parsed | e] |] |];
    cbn [trace app].
  - exists [CatalogCache_invalidateShardOrEntireCollectionEntryForShardedCollection
              (getNamespace request) (getCollectionVersion parsed)
              (getPrimary dbInfo)].
    split; [reflexivity | right; eexists; reflexivity].
  - exists []. split; [reflexivity | left; reflexivity].
  - exists []. split; [reflexivity | left; reflexivity].
  - exists []. split; [reflexivity | left; reflexivity].
Qed.

(** Once the dispatch has brought back a response, the outcome of
    [createCollection] is decided by the transport status, the command status
    and the parse of the response, in that order, and by nothing else: the
    write-concern status of the response is not among them, and a response
    whose command status is OK and which parses makes [createCollection]
    return even when its write-concern status is not OK. *)
Theorem createCollection_outcome_decided opCtx request (w : W) dbInfo sent :
  let resolved :=
    run cl (createDatabase opCtx (dbName (getNamespace request)) None) w in
  let dispatched :=
    run cl (cmdResponse opCtx request dbInfo (cmdObjWithWc opCtx request))
        (final resolved) in
  let r := run cl (createCollection opCtx request) w in
  outcome resolved = Returned dbInfo ->
  outcome dispatched = Returned sent ->
  outcome r =
    match AsyncRequestsSender.swResponse sent with
    | SWError e => Thrown e
    | SWValue remote =>
        if isOK (getStatusFromCommandResult (data remote)) then
          match CreateCollectionResponse_parse (data remote) with
          | SWError e => Thrown e
          | SWValue _ => Returned tt
          end
        else Thrown (getStatusFromCommandResult (data remote))
    end /\
  (forall remote parsed,
      AsyncRequestsSender.swResponse sent = SWValue remote ->
      isOK (getStatusFromCommandResult (data remote)) = true ->
      CreateCollectionResponse_parse (data remote) = SWValue parsed ->
      isOK (getWriteConcernStatusFromCommandResult (data remote)) = false ->
      outcome r = Returned tt).
Proof.
  intros resolved dispatched r Hdb Hsend. subst r.
  pose proof (createCollection_after_dispatch opCtx request w dbInfo sent Hdb Hsend)
    as E.
  fold resolved dispatched in E. clearbody resolved dispatched.
  rewrite E. clear E. split.
  - destruct (AsyncRequestsSender.swResponse sent) as [remote | e];
      [| reflexivity].
    destruct (isOK (getStatusFromCommandResult (data remote))); [| reflexivity].
    destruct (CreateCollectionResponse_parse (data remote)); reflexivity.
  - intros remote parsed Hsw Hst Hparse _.
    rewrite Hsw, Hst, Hparse. reflexivity.
Qed.

End CreateCollectionRuns.

(** ** Further behaviour of [createLegacyUnshardedCollection] *)

Section CreateLegacyUnshardedCollectionRuns.

Context `{ClusterHelpers} {W : Type} (cl : Cluster W).

(** When the lookup of the database fails inside the callback, the error is
    thrown as it is and no command is sent; a NamespaceNotFound is no
    exception: the callback does not create the database. *)
Theorem legacy_callback_lookup_failure nss opCtx cri (w : W) s :
  fst (cl (CatalogCache_getDatabase (dbName nss)) w) = SWError s ->
  run cl (createLegacyUnshardedCollection_callback nss opCtx cri) w =
    mkRun (Thrown s) [CatalogCache_getDatabase (dbName nss)]
          (snd (cl (CatalogCache_getDatabase (dbName nss)) w)).
Proof.
  intro Hget. unfold createLegacyUnshardedCollection_callback.
  simpl in *. rewrite Hget. reflexivity.
Qed.

(** The callback makes at most two calls: the lookup of the database and,
    when the lookup gives a snapshot, one create command to the primary
    shard of that snapshot, with the read and write concern of the operation
    applied, read preference PrimaryOnly and the idempotent retry policy. *)
Theorem legacy_callback_calls nss opCtx cri (w : W) :
  let tr := trace (run cl (createLegacyUnshardedCollection_callback nss opCtx cri) w) in
  let get := CatalogCache_getDatabase (dbName nss) in
  (exists s, fst (cl get w) = SWError s /\ tr = [get]) \/
  (exists dbInfo,
      fst (cl get w) = SWValue dbInfo /\
      tr = [get; legacyCreateCommand nss opCtx dbInfo]).
Proof.
  unfold createLegacyUnshardedCollection_callback, legacyCreateCommand.
  simpl.
  match goal with
  | |- context [uassertStatusWithOK ?x] => destruct x as [dbInfo | s] eqn:Hget
  end; simpl.
  - right. exists dbInfo. split; [reflexivity |].
    run_assert; [| reflexivity].
    match goal with
    | |- context [if ?b then _ else _] => destruct b
    end.
    + run_assert; [| reflexivity]. run_assert; reflexivity.
    + simpl. run_assert; reflexivity.
  - left. exists s. split; reflexivity.
Qed.

(** After the shard has been asked: a transport error is thrown as it is; a
    command status and a write-concern status that are both OK make the
    callback return; and with an OK command status a write-concern status
    that is not OK is thrown. *)
Theorem legacy_callback_outcomes nss opCtx cri (w : W) dbInfo :
  let w1 := snd (cl (CatalogCache_getDatabase (dbName nss)) w) in
  let answer := fst (cl (legacyCreateCommand nss opCtx dbInfo) w1) in
  let r := run cl (createLegacyUnshardedCollection_callback nss opCtx cri) w in
  fst (cl (CatalogCache_getDatabase (dbName nss)) w) = SWValue dbInfo ->
  (forall e,
      AsyncRequestsSender.swResponse answer = SWError e ->
      outcome r = Thrown e) /\
  (forall remote,
      AsyncRequestsSender.swResponse answer = SWValue remote ->
      isOK (getStatusFromCommandResult (data remote)) = true ->
      (isOK (getWriteConcernStatusFromCommandResult (data remote)) = true ->
       outcome r = Returned tt) /\
      (isOK (getWriteConcernStatusFromCommandResult (data remote)) = false ->
       outcome r = Thrown (getWriteConcernStatusFromCommandResult (data remote)))).
Proof.
  intros w1 answer r Hget. split.
  - intros e Hsw. subst r answer w1.
    unfold createLegacyUnshardedCollection_callback, legacyCreateCommand in *.
    simpl in *. rewrite Hget. simpl. rewrite Hsw. reflexivity.
  - intros remote Hsw Hst. subst r.
    rewrite (legacy_callback_outcome cl nss opCtx cri w dbInfo remote Hget Hsw).
    destruct (status_is (getStatusFromCommandResult (data remote))
                        ErrorCodes.NamespaceExists);
      cbn [negb]; unfold uassertStatusOK; try rewrite Hst;
      (split; intro Hwc; rewrite Hwc; reflexivity).
Qed.

(** [createLegacyUnshardedCollection] enters the router only once the database
    is resolved: when [createDatabase] throws, that is the outcome and the
    router is not run; when it returns, the router runs next, from the state
    [createDatabase] left, and its outcome is the outcome. *)
Theorem createLegacyUnshardedCollection_resolves_first route opCtx nss (w : W) :
  let resolved := run cl (createDatabase opCtx (dbName nss) None) w in
  let routed :=
    run cl (route opCtx "cluster::createLegacyUnshardedCollection"
                  (createLegacyUnshardedCollection_callback nss))
        (final resolved) in
  let r := run cl (createLegacyUnshardedCollection route opCtx nss) w in
  (forall s,
      outcome resolved = Thrown s ->
      r = mkRun (Thrown s) (trace resolved) (final resolved)) /\
  (forall dbInfo,
      outcome resolved = Returned dbInfo ->
      r = mkRun (outcome routed) (trace resolved ++ trace routed) (final routed)).
Proof.
  intros resolved routed r. subst r.
  unfold createLegacyUnshardedCollection. rewrite run_bind.
  change (run cl (createDatabase opCtx (dbName nss) None) w) with resolved.
  split.
  - intros s Hdb. rewrite Hdb. reflexivity.
  - intros dbInfo Hdb. rewrite Hdb. reflexivity.
Qed.

End CreateLegacyUnshardedCollectionRuns.

(** ** The further theorems at concrete clusters *)

Section FurtherInstances.

Import Examples.

Local Existing Instance wire.

Lemma createDatabase_nested_error_witness :
  run scripted (createDatabase opCtx0 "test" None) configUnreachable =
    mkRun (Thrown hostUnreachable)
          [CatalogCache_getDatabase "test"; ResourceYielder_yield;
           createDatabaseCommand "test" None]
          (mkScript [SWValue testInfo] (SWError hostUnreachable) Status_OK
                    ["s3"; "s1"; "s2"] okReply).
Proof.
  exact (createDatabase_nested_error
           (H := wire) scripted opCtx0 "test" None configUnreachable notFound hostUnreachable
           eq_refl eq_refl eq_refl).
Defined.

Lemma createDatabase_unyield_error_first_witness :
  outcome (run scripted (createDatabase opCtx0 "test" None) rejectedAndUnyieldFails) =
    Thrown unyieldFailed.
Proof.
  exact (createDatabase_unyield_error_first
           (H := wire) scripted opCtx0 "test" None rejectedAndUnyieldFails notFound rejectedReply
           eq_refl eq_refl eq_refl eq_refl).
Defined.

Lemma createDatabase_creates_witness :
  outcome (run scripted (createDatabase opCtx0 "test" None) cacheMiss) =
    Returned testInfo /\
  trace (run scripted (createDatabase opCtx0 "test" None) cacheMiss) =
    [CatalogCache_getDatabase "test"; ResourceYielder_yield;
     createDatabaseCommand "test" None; ResourceYielder_unyieldNoThrow;
     CatalogCache_onStaleDatabaseVersion "test" 7%N; CatalogCache_getDatabase "test"] /\
  outcome (run scripted (createDatabase opCtx0 "test" None) droppedAfterCreation) =
    Thrown notFound.
Proof.
  rewrite (createDatabase_creates
             (H := wire) scripted opCtx0 "test" None cacheMiss notFound createdReply
             (mkConfigsvrCreateDatabaseResponse 7%N)
             eq_refl eq_refl eq_refl eq_refl eq_refl eq_refl eq_refl).
  rewrite (createDatabase_creates
             (H := wire) scripted opCtx0 "test" None droppedAfterCreation notFound createdReply
             (mkConfigsvrCreateDatabaseResponse 7%N)
             eq_refl eq_refl eq_refl eq_refl eq_refl eq_refl eq_refl).
  split; [reflexivity |]. split; reflexivity.
Defined.

Lemma createDatabase_write_concern_error_witness :
  run scripted (createDatabase opCtx0 "test" None) writeConcernFails =
    mkRun (Thrown writeConcernFailed)
          [CatalogCache_getDatabase "test"; ResourceYielder_yield;
           createDatabaseCommand "test" None; ResourceYielder_unyieldNoThrow]
          (mkScript [SWValue testInfo] (SWValue rejectedAndWriteConcernFailedReply)
                    Status_OK ["s1"] okReply).
Proof.
  exact (createDatabase_write_concern_error
           (H := wire) scripted opCtx0 "test" None writeConcernFails notFound
           rejectedAndWriteConcernFailedReply
           eq_refl eq_refl eq_refl eq_refl eq_refl).
Defined.

Lemma createDatabase_command_error_witness :
  outcome (run scripted (createDatabase opCtx0 "test" None) creationRejected) =
    Thrown (mkStatus (ErrorCodes.Other 72%N)
                     "Database test could not be created :: caused by :: invalid options") /\
  trace (run scripted (createDatabase opCtx0 "test" None) creationRejected) =
    [CatalogCache_getDatabase "test"; ResourceYielder_yield;
     createDatabaseCommand "test" None; ResourceYielder_unyieldNoThrow].
Proof.
  pose proof (createDatabase_command_error
                (H := wire) scripted opCtx0 "test" None creationRejected notFound rejectedReply
                eq_refl eq_refl eq_refl eq_refl eq_refl eq_refl) as (Hout & _ & Htr).
  split; [exact Hout | exact Htr].
Defined.

Lemma executeCommandAgainstFirstShard_returns_first_response_witness :
  run scripted
      (executeCommandAgainstFirstShard
         opCtx0 "config" configInfo createCmd PrimaryOnly Shard.kIdempotent)
      (configCached ["s3"; "s1"; "s2"] okReply) =
    mkRun (Returned okReply)
          [ShardRegistry_getAllShardIds;
           gatherResponses
             "config" PrimaryOnly Shard.kIdempotent
             [AsyncRequestsSender.mkRequest
                "s1" (appendDbVersionIfPresent createCmd configInfo)]]
          (configCached ["s3"; "s1"; "s2"] okReply).
Proof.
  exact (executeCommandAgainstFirstShard_returns_first_response
           (H := wire) scripted opCtx0 "config" configInfo createCmd PrimaryOnly Shard.kIdempotent
           (configCached ["s3"; "s1"; "s2"] okReply) "s1" ["s2"; "s3"] okReply []
           eq_refl eq_refl).
Defined.

Lemma createCollection_database_failure_witness :
  run scripted (createCollection opCtx0 testRequest) cacheDown =
    mkRun (Thrown hostUnreachable) [CatalogCache_getDatabase "test"]
          (mkScript [] (SWValue createdReply) Status_OK ["s3"; "s1"; "s2"] okReply).
Proof.
  exact (createCollection_database_failure
           (H := wire) scripted opCtx0 testRequest cacheDown hostUnreachable eq_refl).
Defined.

Lemma createCollection_error_surfaced_witness :
  outcome (run scripted (createCollection opCtx0 testRequest)
               (legacyScript shardUnreachable)) = Thrown hostUnreachable /\
  outcome (run scripted (createCollection opCtx0 testRequest)
               (legacyScript illegalReply)) =
    Thrown (mkStatus ErrorCodes.IllegalOperation "code").
Proof.
  split.
  - rewrite (proj1 (createCollection_error_surfaced
                      (H := wire) scripted opCtx0 testRequest (legacyScript shardUnreachable)
                      testInfo shardUnreachable eq_refl eq_refl)
                   hostUnreachable eq_refl).
    reflexivity.
  - rewrite (proj1 (proj2 (createCollection_error_surfaced
                             (H := wire) scripted opCtx0 testRequest (legacyScript illegalReply)
                             testInfo illegalReply eq_refl eq_refl))
                   (mkRemoteCommandResponse [BElem "code" (BNumber 20%Z)])
                   eq_refl eq_refl).
    reflexivity.
Defined.

Lemma scripted_answersEveryRequest : answersEveryRequest scripted.
Proof. intros d rp retry requests w. simpl. apply length_map. Qed.

Lemma createCollection_invalidates_iff_returns_witness :
  answersEveryRequest scripted /\
  existsb isInvalidation
          (trace (run scripted (createCollection opCtx0 testRequest)
                      (legacyScript illegalReply))) = false /\
  exists before v shard,
    trace (run scripted (createCollection opCtx0 sessionsRequest)
               (configCached ["s3"; "s1"; "s2"] okReply)) =
      before ++
      [CatalogCache_invalidateShardOrEntireCollectionEntryForShardedCollection
         (getNamespace sessionsRequest) v shard] /\
    existsb isInvalidation before = false.
Proof.
  split; [exact scripted_answersEveryRequest |].
  split.
  - exact (proj1 (createCollection_invalidates_iff_returns
                    (H := wire) scripted opCtx0 testRequest (legacyScript illegalReply)
                    scripted_answersEveryRequest)
                 (mkStatus ErrorCodes.IllegalOperation "code") eq_refl).
  - exact (proj2 (createCollection_invalidates_iff_returns
                    (H := wire) scripted opCtx0 sessionsRequest
                    (configCached ["s3"; "s1"; "s2"] okReply)
                    scripted_answersEveryRequest)
                 eq_refl).
Defined.

Lemma createCollection_dispatches_to_primary_witness :
  exists rest,
    trace (run scripted (createCollection opCtx0 testRequest) cacheHit) =
      [CatalogCache_getDatabase "test"] ++
      executeCommandAgainstDatabasePrimary
        "test" testInfo (cmdObjWithWc opCtx0 testRequest)
        PrimaryOnly Shard.kIdempotent :: rest /\
    (rest = [] \/
     exists v,
       rest =
         [CatalogCache_invalidateShardOrEntireCollectionEntryForShardedCollection
            (getNamespace testRequest) v "s1"]).
Proof.
  exact (createCollection_dispatches_to_primary
           (H := wire) scripted opCtx0 testRequest cacheHit testInfo eq_refl eq_refl).
Defined.

Lemma legacy_callback_lookup_failure_witness :
  run scripted (createLegacyUnshardedCollection_callback testNss opCtx0 cri0)
      (mkScript [] (SWValue createdReply) Status_OK ["s1"] okReply) =
    mkRun (Thrown notFound) [CatalogCache_getDatabase "test"]
          (mkScript [] (SWValue createdReply) Status_OK ["s1"] okReply).
Proof.
  exact (legacy_callback_lookup_failure
           (H := wire) scripted testNss opCtx0 cri0
           (mkScript [] (SWValue createdReply) Status_OK ["s1"] okReply)
           notFound eq_refl).
Defined.

Lemma legacy_callback_outcomes_witness :
  outcome (run scripted
               (createLegacyUnshardedCollection_callback testNss opCtx0 cri0)
               (legacyScript shardUnreachable)) = Thrown hostUnreachable /\
  outcome (run scripted
               (createLegacyUnshardedCollection_callback testNss opCtx0 cri0)
               (legacyScript plainReply)) = Returned tt /\
  outcome (run scripted
               (createLegacyUnshardedCollection_callback testNss opCtx0 cri0)
               (legacyScript writeConcernErrorReply)) =
    Thrown (mkStatus ErrorCodes.WriteConcernFailed "writeConcernError").
Proof.
  split; [| split].
  - exact (proj1 (legacy_callback_outcomes
                    (H := wire) scripted testNss opCtx0 cri0 (legacyScript shardUnreachable)
                    testInfo eq_refl)
                 hostUnreachable eq_refl).
  - exact (proj1 (proj2 (legacy_callback_outcomes
                           (H := wire) scripted testNss opCtx0 cri0 (legacyScript plainReply)
                           testInfo eq_refl)
                        (mkRemoteCommandResponse []) eq_refl eq_refl)
                 eq_refl).
  - exact (proj2 (proj2 (legacy_callback_outcomes
                           (H := wire) scripted testNss opCtx0 cri0
                           (legacyScript writeConcernErrorReply) testInfo eq_refl)
                        (mkRemoteCommandResponse
                           [BElem "writeConcernError" (BNumber 64%Z)])
                        eq_refl eq_refl)
                 eq_refl).
Defined.

Lemma createLegacyUnshardedCollection_resolves_first_witness :
  run scripted (createLegacyUnshardedCollection routeOnce opCtx0 testNss) cacheDown =
    mkRun (Thrown hostUnreachable) [CatalogCache_getDatabase "test"]
          (mkScript [] (SWValue createdReply) Status_OK ["s3"; "s1"; "s2"] okReply) /\
  trace (run scripted (createLegacyUnshardedCollection routeOnce opCtx0 testNss)
             (mkScript [SWValue testInfo; SWValue testInfo] (SWValue createdReply)
                       Status_OK ["s1"] existsReply)) =
    [CatalogCache_getDatabase "test"] ++
    [CatalogCache_getDatabase "test"; legacyCreateCommand testNss opCtx0 testInfo].
Proof.
  split.
  - exact (proj1 (createLegacyUnshardedCollection_resolves_first
                    (H := wire) scripted routeOnce opCtx0 testNss cacheDown)
                 hostUnreachable eq_refl).
  - rewrite (proj2 (createLegacyUnshardedCollection_resolves_first
                      (H := wire) scripted routeOnce opCtx0 testNss
                      (mkScript [SWValue testInfo; SWValue testInfo]
                                (SWValue createdReply) Status_OK ["s1"] existsReply))
                   testInfo eq_refl).
    reflexivity.
Defined.

End FurtherInstances.

(** ** [createLegacyUnshardedCollection] from its entry *)

Section CreateLegacyUnshardedCollectionEntry.

Context `{ClusterHelpers} {W : Type} (cl : Cluster W).

(** With a router that runs the callback once, the outcome of the callback is
    the outcome of [createLegacyUnshardedCollection]. *)
Lemma createLegacyUnshardedCollection_outcome
    route prelude opCtx nss (w : W) dbInfo0 cri :
  let resolved := run cl (createDatabase opCtx (dbName nss) None) w in
  let routed := run cl prelude (final resolved) in
  runsCallbackOnce route prelude ->
  outcome resolved = Returned dbInfo0 ->
  outcome routed = Returned cri ->
  outcome (run cl (createLegacyUnshardedCollection route opCtx nss) w) =
    outcome (run cl (createLegacyUnshardedCollection_callback nss opCtx cri)
                 (final routed)).
Proof.
  intros resolved routed Hroute Hdb Hrouted.
  unfold createLegacyUnshardedCollection. cbv zeta. rewrite run_bind.
  change (run cl (createDatabase opCtx (dbName nss) None) w) with resolved.
  rewrite Hdb. cbv zeta. rewrite Hroute, run_bind.
  change (run cl prelude (final resolved)) with routed.
  rewrite Hrouted. reflexivity.
Qed.

(** C5: with a router that runs the callback once, when the database is
    resolved and the shard answers the create command with the status
    NamespaceExists, [createLegacyUnshardedCollection] does not throw that
    status: it ends the way the check of the write-concern status alone ends,
    so it returns when the write-concern status is OK; every other command
    status that is not OK is thrown to the caller as it is. *)
Theorem createLegacyUnshardedCollection_NamespaceExists_swallowed
    route prelude opCtx nss (w : W) dbInfo0 cri dbInfo remote :
  let resolved := run cl (createDatabase opCtx (dbName nss) None) w in
  let routed := run cl prelude (final resolved) in
  let get := CatalogCache_getDatabase (dbName nss) in
  let w1 := snd (cl get (final routed)) in
  let createStatus := getStatusFromCommandResult (data remote) in
  let wcStatus := getWriteConcernStatusFromCommandResult (data remote) in
  let r := run cl (createLegacyUnshardedCollection route opCtx nss) w in
  runsCallbackOnce route prelude ->
  outcome resolved = Returned dbInfo0 ->
  outcome routed = Returned cri ->
  fst (cl get (final routed)) = SWValue dbInfo ->
  AsyncRequestsSender.swResponse
    (fst (cl (legacyCreateCommand nss opCtx dbInfo) w1)) = SWValue remote ->
  (code createStatus = ErrorCodes.NamespaceExists ->
   outcome r = (if isOK wcStatus then Returned tt else Thrown wcStatus) /\
   (isOK wcStatus = true -> outcome r = Returned tt)) /\
  (isOK createStatus = false ->
   code createStatus <> ErrorCodes.NamespaceExists ->
   outcome r = Thrown createStatus).
Proof.
  intros resolved routed get w1 createStatus wcStatus r
         Hroute Hdb Hrouted Hget Hsw.
  subst r.
  rewrite (createLegacyUnshardedCollection_outcome
             route prelude opCtx nss w dbInfo0 cri Hroute Hdb Hrouted).
  fold resolved routed.
  rewrite (legacy_callback_outcome
             cl nss opCtx cri (final routed) dbInfo remote Hget Hsw).
  fold createStatus wcStatus. unfold status_is.
  split.
  - intro Hcode. rewrite Hcode. simpl.
    unfold uassertStatusOK. destruct (isOK wcStatus); simpl.
    + split; [reflexivity | reflexivity].
    + split; [reflexivity | discriminate].
  - intros Hnok Hcode. apply ErrorCodes_eqb_neq in Hcode. rewrite Hcode. simpl.
    unfold uassertStatusOK at 1. rewrite Hnok. reflexivity.
Qed.

(** C10: with a router that runs the callback once, when the database is
    resolved, the command status of the shard's answer is the swallowed
    NamespaceExists and its write-concern status is not OK,
    [createLegacyUnshardedCollection] throws the write-concern status to its
    caller. *)
Theorem createLegacyUnshardedCollection_write_concern_error_surfaced
    route prelude opCtx nss (w : W) dbInfo0 cri dbInfo remote :
  let resolved := run cl (createDatabase opCtx (dbName nss) None) w in
  let routed := run cl prelude (final resolved) in
  let get := CatalogCache_getDatabase (dbName nss) in
  let w1 := snd (cl get (final routed)) in
  let createStatus := getStatusFromCommandResult (data remote) in
  let wcStatus := getWriteConcernStatusFromCommandResult (data remote) in
  runsCallbackOnce route prelude ->
  outcome resolved = Returned dbInfo0 ->
  outcome routed = Returned cri ->
  fst (cl get (final routed)) = SWValue dbInfo ->
  AsyncRequestsSender.swResponse
    (fst (cl (legacyCreateCommand nss opCtx dbInfo) w1)) = SWValue remote ->
  code createStatus = ErrorCodes.NamespaceExists ->
  isOK wcStatus = false ->
  outcome (run cl (createLegacyUnshardedCollection route opCtx nss) w) =
    Thrown wcStatus.
Proof.
  intros resolved routed get w1 createStatus wcStatus
         Hroute Hdb Hrouted Hget Hsw Hcode Hwc.
  rewrite (createLegacyUnshardedCollection_outcome
             route prelude opCtx nss w dbInfo0 cri Hroute Hdb Hrouted).
  fold resolved routed.
  rewrite (legacy_callback_outcome
             cl nss opCtx cri (final routed) dbInfo remote Hget Hsw).
  fold createStatus wcStatus. unfold status_is. rewrite Hcode. simpl.
  unfold uassertStatusOK. rewrite Hwc. reflexivity.
Qed.

End CreateLegacyUnshardedCollectionEntry.

Section EntryInstances.

Import Examples.

Local Existing Instance wire.

Lemma routeOnce_runsCallbackOnce : runsCallbackOnce routeOnce (Ret cri0).
Proof. intros opCtx name callback. reflexivity. Qed.

Lemma createLegacyUnshardedCollection_NamespaceExists_swallowed_witness :
  runsCallbackOnce routeOnce (Ret cri0) /\
  outcome (run scripted (createLegacyUnshardedCollection routeOnce opCtx0 testNss)
               (legacyEntryScript existsReply)) = Returned tt /\
  outcome (run scripted (createLegacyUnshardedCollection routeOnce opCtx0 testNss)
               (legacyEntryScript illegalReply)) =
    Thrown (mkStatus ErrorCodes.IllegalOperation "code").
Proof.
  split; [exact routeOnce_runsCallbackOnce |].
  split.
  - exact (proj2 (proj1 (createLegacyUnshardedCollection_NamespaceExists_swallowed
                           (H := wire) scripted routeOnce (Ret cri0) opCtx0 testNss
                           (legacyEntryScript existsReply) testInfo cri0 testInfo
                           (mkRemoteCommandResponse [BElem "code" (BNumber 48%Z)])
                           routeOnce_runsCallbackOnce
                           eq_refl eq_refl eq_refl eq_refl)
                        eq_refl)
                 eq_refl).
  - exact (proj2 (createLegacyUnshardedCollection_NamespaceExists_swallowed
                    (H := wire) scripted routeOnce (Ret cri0) opCtx0 testNss
                    (legacyEntryScript illegalReply) testInfo cri0 testInfo
                    (mkRemoteCommandResponse [BElem "code" (BNumber 20%Z)])
                    routeOnce_runsCallbackOnce
                    eq_refl eq_refl eq_refl eq_refl)
                 eq_refl ltac:(discriminate)).
Defined.

Lemma createLegacyUnshardedCollection_write_concern_error_surfaced_witness :
  runsCallbackOnce routeOnce (Ret cri0) /\
  outcome (run scripted (createLegacyUnshardedCollection routeOnce opCtx0 testNss)
               (legacyEntryScript existsWithWriteConcernErrorReply)) =
    Thrown (mkStatus ErrorCodes.WriteConcernFailed "writeConcernError").
Proof.
  split; [exact routeOnce_runsCallbackOnce |].
  exact (createLegacyUnshardedCollection_write_concern_error_surfaced
           (H := wire) scripted routeOnce (Ret cri0) opCtx0 testNss
           (legacyEntryScript existsWithWriteConcernErrorReply) testInfo cri0 testInfo
           (mkRemoteCommandResponse
              [BElem "code" (BNumber 48%Z);
               BElem "writeConcernError" (BNumber 64%Z)])
           routeOnce_runsCallbackOnce
           eq_refl eq_refl eq_refl eq_refl eq_refl eq_refl).
Defined.

Lemma createCollection_outcome_decided_witness :
  outcome (run scripted (createCollection opCtx0 testRequest)
               (legacyScript writeConcernErrorReply)) = Returned tt.
Proof.
  exact (proj2 (createCollection_outcome_decided
                  (H := wire) scripted opCtx0 testRequest
                  (legacyScript writeConcernErrorReply) testInfo
                  writeConcernErrorReply eq_refl eq_refl)
               (mkRemoteCommandResponse [BElem "writeConcernError" (BNumber 64%Z)])
               (mkCreateCollectionResponse None)
               eq_refl eq_refl eq_refl eq_refl).
Defined.

End EntryInstances.
